(** * AfterLight backend: settings resolution and start-up sequencing

    A shallow embedding of [app/config.py], [universal_start.py] and
    [render_start.py], followed by the properties of the configuration
    contract.

    Conventions of the embedding.
    - A Python [str] is a Rocq [string]; every character stands for the code
      point of the same number (0..255).  The character classes used by
      [str.strip], [int] and [str.lower] below are Python's, restricted to
      that range.
    - [os.environ] is a finite map from names to values.  [os.getenv(k)] is
      the lookup, [os.getenv(k, d)] the lookup with a default.
    - An [Optional[str]] is an [option string]; Python truthiness of such a
      value is [truthy].
    - Code runs in a state-and-exception monad.  For [Settings.__init__] the
      state is [self]; for the start scripts it is the process world: the
      environment table, the lines printed so far, the pauses taken and the
      calls made to the server entry point.
    - Three libraries lie outside the repository.  The constructor of
      pydantic's [BaseSettings], which [__init__] calls first, is a
      parameter: a function from the environment to the [Settings] object it
      hands to the rest of [__init__], or to the exception it raises when a
      field does not validate.  A statement about the rest of [__init__]
      takes that object, [base], as given.  [uvicorn.run] is a function
      telling whether a call returns or raises; the loading of a [.env] file
      is the environment the scripts start in. *)

From Stdlib Require Import ZArith Ascii String DecimalString Lia.
From stdpp Require Import base option gmap strings list fin_maps.

Open Scope string_scope.
Open Scope Z_scope.

(** ** Python built-ins used by the three files *)

Module Py.

(** Truthiness of an [Optional[str]]: [None] and [''] are falsy. *)
Definition truthy (o : option string) : bool :=
  match o with
  | Some (String _ _) => true
  | _ => false
  end.

(** Truthiness of a [str]. *)
Definition nonempty (s : string) : bool := truthy (Some s).

(** [c.isspace()] as used by [str.strip()]. *)
Definition isspace (c : ascii) : bool :=
  let n := N_of_ascii c in
  ((9 <=? n) && (n <=? 13) || (28 <=? n) && (n <=? 32)
   || (n =? 133) || (n =? 160))%N.

Fixpoint lstrip (s : string) : string :=
  match s with
  | String c r => if isspace c then lstrip r else s
  | EmptyString => EmptyString
  end.

Fixpoint rstrip (s : string) : string :=
  match s with
  | EmptyString => EmptyString
  | String c r =>
      match rstrip r with
      | EmptyString => if isspace c then EmptyString else String c EmptyString
      | r' => String c r'
      end
  end.

(** [s.strip()] *)
Definition strip (s : string) : string := rstrip (lstrip s).

(** [s.split(sep)] for a one-character separator: always at least one
    piece, empty pieces kept. *)
Fixpoint split (sep : ascii) (s : string) : list string :=
  match s with
  | EmptyString => [EmptyString]
  | String c r =>
      if Ascii.eqb c sep then EmptyString :: split sep r
      else match split sep r with
           | p :: ps => String c p :: ps
           | [] => [String c EmptyString]
           end
  end.

(** [sep.join(l)] *)
Fixpoint join (sep : string) (l : list string) : string :=
  match l with
  | [] => EmptyString
  | [x] => x
  | x :: xs => x +:+ sep +:+ join sep xs
  end.

(** [str(n)] and the rendering of an [int] inside an f-string, for an [int]
    within the interpreter's limit on conversions (4300 digits, see [int]
    below). *)
Definition str (n : Z) : string := NilEmpty.string_of_int (Z.to_int n).

(** The rendering of an [Optional[str]] inside an f-string. *)
Definition fmt (o : option string) : string := default "None" o.

(** [s.lower()] *)
Definition lower_char (c : ascii) : ascii :=
  let n := N_of_ascii c in
  if ((65 <=? n) && (n <=? 90)
      || (192 <=? n) && (n <=? 222) && negb (n =? 215))%N
  then ascii_of_N (n + 32) else c.

Fixpoint lower (s : string) : string :=
  match s with
  | EmptyString => EmptyString
  | String c r => String (lower_char c) (lower r)
  end.

(** [s.upper()], on the letters a-z; the scripts apply it to the three
    platform tags only. *)
Definition upper_char (c : ascii) : ascii :=
  let n := N_of_ascii c in
  if ((97 <=? n) && (n <=? 122))%N then ascii_of_N (n - 32) else c.

Fixpoint upper (s : string) : string :=
  match s with
  | EmptyString => EmptyString
  | String c r => String (upper_char c) (upper r)
  end.

(** *** [int(s)] in base 10

    Surrounding white space is skipped, one sign is allowed, then come
    decimal digits, where single underscores may separate digits.  A literal
    of more than [max_str_digits] digits is refused: leading zeros count,
    underscores, the sign and white space do not.  [None] stands for
    [ValueError]. *)

(** [sys.int_info.default_max_str_digits], the limit of an interpreter
    started without [PYTHONINTMAXSTRDIGITS] and without [-X
    int_max_str_digits]. *)
Definition max_str_digits : Z := 4300.

(** White space skipped by [int]. *)
Definition int_space (c : ascii) : bool :=
  let n := N_of_ascii c in
  ((9 <=? n) && (n <=? 13) || (n =? 32) || (n =? 133) || (n =? 160))%N.

Definition digit (c : ascii) : option Z :=
  let n := N_of_ascii c in
  if ((48 <=? n) && (n <=? 57))%N then Some (Z.of_N n - 48) else None.

Fixpoint skip_space (s : string) : string :=
  match s with
  | String c r => if int_space c then skip_space r else s
  | EmptyString => EmptyString
  end.

(** [after_digit] tells whether the previous character was a digit, [count]
    how many digits were read so far; the result is the value read, the
    number of its digits and the unread rest. *)
Fixpoint digits (acc count : Z) (after_digit : bool) (s : string)
  : option (Z * Z * string) :=
  match s with
  | EmptyString =>
      if after_digit then Some (acc, count, EmptyString) else None
  | String c r =>
      match digit c with
      | Some d => digits (10 * acc + d) (count + 1) true r
      | None =>
          if Ascii.eqb c "_" then
            if after_digit then digits acc count false r else None
          else if after_digit then Some (acc, count, s) else None
      end
  end.

Definition unsigned (s : string) : option Z :=
  match digits 0 0 false s with
  | Some (n, count, rest) =>
      if max_str_digits <? count then None
      else match skip_space rest with
           | EmptyString => Some n
           | _ => None
           end
  | None => None
  end.

Definition int (s : string) : option Z :=
  match skip_space s with
  | String "+" r => unsigned r
  | String "-" r => Z.opp <$> unsigned r
  | r => unsigned r
  end.

End Py.

(** ** Exceptions and the state-and-exception monad *)

Inductive exn :=
| ValueError
| TypeError
| SystemExit (code : Z)
| Exception (msg : string).

(** What [except Exception] catches: everything here but [SystemExit]. *)
Definition is_Exception (e : exn) : bool :=
  match e with
  | SystemExit _ => false
  | _ => true
  end.

(** [str(e)] of a caught exception.  The one handler that prints it guards
    the call of the server, which raises [Exception msg] only. *)
Definition exn_str (e : exn) : string :=
  match e with
  | Exception msg => msg
  | SystemExit code => Py.str code
  | ValueError | TypeError => EmptyString
  end.

Inductive result (A : Type) :=
| Ok (a : A)
| Raise (e : exn).
Arguments Ok {A} a.
Arguments Raise {A} e.

Definition M (St A : Type) : Type := St -> result A * St.

#[global] Instance M_ret {St} : MRet (M St) := fun A a st => (Ok a, st).

#[global] Instance M_bind {St} : MBind (M St) :=
  fun A B f m st =>
    match m st with
    | (Ok a, st') => f a st'
    | (Raise e, st') => (Raise e, st')
    end.

Definition raise {St A} (e : exn) : M St A := fun st => (Raise e, st).
Definition get {St} : M St St := fun st => (Ok st, st).
Definition modify {St} (f : St -> St) : M St unit := fun st => (Ok tt, f st).

(** [try: body except <filter> as e: handler e] *)
Definition try_except {St A} (body : M St A) (catches : exn -> bool)
    (handler : exn -> M St A) : M St A :=
  fun st =>
    match body st with
    | (Raise e, st') => if catches e then handler e st' else (Raise e, st')
    | r => r
    end.

(** Statement-level [if c: body] with no [else]. *)
Definition when {St} (c : bool) (body : M St unit) : M St unit :=
  if c then body else mret tt.

(** [int(x)] on an [Optional[str]]: [TypeError] on [None], [ValueError] on a
    string that is not an integer literal. *)
Definition int_of {St} (x : option string) : M St Z :=
  match x with
  | None => raise TypeError
  | Some s =>
      match Py.int s with
      | Some n => mret n
      | None => raise ValueError
      end
  end.

(** ** [app/config.py] *)

Module config.

(** The value of a list-like setting: the delimited string read from the
    environment, or a list assigned later by the module. *)
Inductive str_or_list :=
| Str (s : string)
| Lst (l : list string).

(** The fields of [Settings] that the code of the module reads or writes.
    The remaining fields of the class are plain data with defaults. *)
Record Settings := {
  ENVIRONMENT : string;
  DEBUG : bool;
  PORT : Z;
  ALLOWED_ORIGINS : str_or_list;
  ALLOWED_HOSTS : str_or_list;
  DATABASE_URL : option string;
  DATABASE_HOST : string;
  DATABASE_PORT : Z;
  DATABASE_NAME : string;
  DATABASE_USER : string;
  DATABASE_PASSWORD : string;
  REDIS_URL : option string;
  REDIS_HOST : string;
  REDIS_PORT : Z;
  REDIS_DB : Z;
  ALLOWED_FILE_TYPES : str_or_list
}.

(** The class-level defaults. *)
Definition defaults : Settings := {|
  ENVIRONMENT := "development";
  DEBUG := true;
  PORT := 8000;
  ALLOWED_ORIGINS :=
    Str "http://localhost:3000,http://localhost:3001,https://afterlight.app,https://www.afterlight.app";
  ALLOWED_HOSTS := Str "localhost,127.0.0.1,afterlight.app,www.afterlight.app";
  DATABASE_URL := None;
  DATABASE_HOST := "localhost";
  DATABASE_PORT := 5432;
  DATABASE_NAME := "afterlight";
  DATABASE_USER := "postgres";
  DATABASE_PASSWORD := "";
  REDIS_URL := None;
  REDIS_HOST := "localhost";
  REDIS_PORT := 6379;
  REDIS_DB := 0;
  ALLOWED_FILE_TYPES := Str "image/jpeg,image/png,image/gif,image/webp"
|}.

(** Attribute assignment [self.F = v]. *)
Definition set_ENVIRONMENT (v : string) (s : Settings) : Settings :=
  {| ENVIRONMENT := v; DEBUG := DEBUG s; PORT := PORT s;
     ALLOWED_ORIGINS := ALLOWED_ORIGINS s; ALLOWED_HOSTS := ALLOWED_HOSTS s;
     DATABASE_URL := DATABASE_URL s; DATABASE_HOST := DATABASE_HOST s;
     DATABASE_PORT := DATABASE_PORT s; DATABASE_NAME := DATABASE_NAME s;
     DATABASE_USER := DATABASE_USER s;
     DATABASE_PASSWORD := DATABASE_PASSWORD s; REDIS_URL := REDIS_URL s;
     REDIS_HOST := REDIS_HOST s; REDIS_PORT := REDIS_PORT s;
     REDIS_DB := REDIS_DB s; ALLOWED_FILE_TYPES := ALLOWED_FILE_TYPES s |}.

Definition set_DEBUG (v : bool) (s : Settings) : Settings :=
  {| ENVIRONMENT := ENVIRONMENT s; DEBUG := v; PORT := PORT s;
     ALLOWED_ORIGINS := ALLOWED_ORIGINS s; ALLOWED_HOSTS := ALLOWED_HOSTS s;
     DATABASE_URL := DATABASE_URL s; DATABASE_HOST := DATABASE_HOST s;
     DATABASE_PORT := DATABASE_PORT s; DATABASE_NAME := DATABASE_NAME s;
     DATABASE_USER := DATABASE_USER s;
     DATABASE_PASSWORD := DATABASE_PASSWORD s; REDIS_URL := REDIS_URL s;
     REDIS_HOST := REDIS_HOST s; REDIS_PORT := REDIS_PORT s;
     REDIS_DB := REDIS_DB s; ALLOWED_FILE_TYPES := ALLOWED_FILE_TYPES s |}.

Definition set_PORT (v : Z) (s : Settings) : Settings :=
  {| ENVIRONMENT := ENVIRONMENT s; DEBUG := DEBUG s; PORT := v;
     ALLOWED_ORIGINS := ALLOWED_ORIGINS s; ALLOWED_HOSTS := ALLOWED_HOSTS s;
     DATABASE_URL := DATABASE_URL s; DATABASE_HOST := DATABASE_HOST s;
     DATABASE_PORT := DATABASE_PORT s; DATABASE_NAME := DATABASE_NAME s;
     DATABASE_USER := DATABASE_USER s;
     DATABASE_PASSWORD := DATABASE_PASSWORD s; REDIS_URL := REDIS_URL s;
     REDIS_HOST := REDIS_HOST s; REDIS_PORT := REDIS_PORT s;
     REDIS_DB := REDIS_DB s; ALLOWED_FILE_TYPES := ALLOWED_FILE_TYPES s |}.

Definition set_ALLOWED_ORIGINS (v : str_or_list) (s : Settings) : Settings :=
  {| ENVIRONMENT := ENVIRONMENT s; DEBUG := DEBUG s; PORT := PORT s;
     ALLOWED_ORIGINS := v; ALLOWED_HOSTS := ALLOWED_HOSTS s;
     DATABASE_URL := DATABASE_URL s; DATABASE_HOST := DATABASE_HOST s;
     DATABASE_PORT := DATABASE_PORT s; DATABASE_NAME := DATABASE_NAME s;
     DATABASE_USER := DATABASE_USER s;
     DATABASE_PASSWORD := DATABASE_PASSWORD s; REDIS_URL := REDIS_URL s;
     REDIS_HOST := REDIS_HOST s; REDIS_PORT := REDIS_PORT s;
     REDIS_DB := REDIS_DB s; ALLOWED_FILE_TYPES := ALLOWED_FILE_TYPES s |}.

Definition set_DATABASE_URL (v : option string) (s : Settings) : Settings :=
  {| ENVIRONMENT := ENVIRONMENT s; DEBUG := DEBUG s; PORT := PORT s;
     ALLOWED_ORIGINS := ALLOWED_ORIGINS s; ALLOWED_HOSTS := ALLOWED_HOSTS s;
     DATABASE_URL := v; DATABASE_HOST := DATABASE_HOST s;
     DATABASE_PORT := DATABASE_PORT s; DATABASE_NAME := DATABASE_NAME s;
     DATABASE_USER := DATABASE_USER s;
     DATABASE_PASSWORD := DATABASE_PASSWORD s; REDIS_URL := REDIS_URL s;
     REDIS_HOST := REDIS_HOST s; REDIS_PORT := REDIS_PORT s;
     REDIS_DB := REDIS_DB s; ALLOWED_FILE_TYPES := ALLOWED_FILE_TYPES s |}.

Definition set_REDIS_URL (v : option string) (s : Settings) : Settings :=
  {| ENVIRONMENT := ENVIRONMENT s; DEBUG := DEBUG s; PORT := PORT s;
     ALLOWED_ORIGINS := ALLOWED_ORIGINS s; ALLOWED_HOSTS := ALLOWED_HOSTS s;
     DATABASE_URL := DATABASE_URL s; DATABASE_HOST := DATABASE_HOST s;
     DATABASE_PORT := DATABASE_PORT s; DATABASE_NAME := DATABASE_NAME s;
     DATABASE_USER := DATABASE_USER s;
     DATABASE_PASSWORD := DATABASE_PASSWORD s; REDIS_URL := v;
     REDIS_HOST := REDIS_HOST s; REDIS_PORT := REDIS_PORT s;
     REDIS_DB := REDIS_DB s; ALLOWED_FILE_TYPES := ALLOWED_FILE_TYPES s |}.

(** [[x.strip() for x in value.split(',') if x.strip()]] when the value is a
    string, the value itself when it is already a list. *)
Definition as_list (v : str_or_list) : list string :=
  match v with
  | Str s =>
      Py.strip <$>
        List.filter (fun x => Py.nonempty (Py.strip x)) (Py.split "," s)
  | Lst l => l
  end.

Definition allowed_origins_list (self : Settings) : list string :=
  as_list (ALLOWED_ORIGINS self).

Definition allowed_hosts_list (self : Settings) : list string :=
  as_list (ALLOWED_HOSTS self).

Definition allowed_file_types_list (self : Settings) : list string :=
  as_list (ALLOWED_FILE_TYPES self).

(** The two f-strings that build the database URL. *)
Definition database_url_with_password (self : Settings) : string :=
  "postgresql://" +:+ DATABASE_USER self +:+ ":" +:+ DATABASE_PASSWORD self
    +:+ "@" +:+ DATABASE_HOST self +:+ ":" +:+ Py.str (DATABASE_PORT self)
    +:+ "/" +:+ DATABASE_NAME self.

Definition database_url_without_password (self : Settings) : string :=
  "postgresql://" +:+ DATABASE_USER self
    +:+ "@" +:+ DATABASE_HOST self +:+ ":" +:+ Py.str (DATABASE_PORT self)
    +:+ "/" +:+ DATABASE_NAME self.

Definition redis_url (self : Settings) : string :=
  "redis://" +:+ REDIS_HOST self +:+ ":" +:+ Py.str (REDIS_PORT self)
    +:+ "/" +:+ Py.str (REDIS_DB self).

(** The body of [Settings.__init__] after the call of the base-class
    constructor has returned: the state is [self] as the base class left it,
    [environ] is the process environment (only read here). *)
Definition Settings__init__ (environ : gmap string string)
  : M Settings unit :=
  (* Railway-specific environment handling *)
  when (Py.truthy (environ !! "RAILWAY_ENVIRONMENT"))
    (modify (set_ENVIRONMENT
               (default "development" (environ !! "RAILWAY_ENVIRONMENT")));;
     self ← get;
     modify (set_DEBUG (String.eqb (ENVIRONMENT self) "development")));;
  (* Railway automatically provides PORT *)
  when (Py.truthy (environ !! "PORT"))
    (port ← int_of (environ !! "PORT");
     modify (set_PORT port));;
  (* Build database URL if not provided *)
  self ← get;
  when (negb (Py.truthy (DATABASE_URL self)))
    (if Py.nonempty (DATABASE_PASSWORD self)
     then modify (set_DATABASE_URL (Some (database_url_with_password self)))
     else modify (set_DATABASE_URL
                    (Some (database_url_without_password self))));;
  (* Build Redis URL if not provided *)
  self ← get;
  when (negb (Py.truthy (REDIS_URL self)))
    (modify (set_REDIS_URL (Some (redis_url self))));;
  (* Set debug based on environment *)
  self ← get;
  modify (set_DEBUG (String.eqb (ENVIRONMENT self) "development")).

Definition production_origins : list string :=
  ["https://afterlight.app"; "https://www.afterlight.app"].

Definition staging_origins : list string :=
  ["https://staging.afterlight.app"; "https://staging-www.afterlight.app"].

(** The module body from the point where the base constructor has
    returned: the rest of [Settings()] followed by the environment-specific
    overrides.  The state is the [settings] object. *)
Definition module_body (environ : gmap string string) : M Settings unit :=
  Settings__init__ environ;;
  settings ← get;
  if String.eqb (ENVIRONMENT settings) "production" then
    modify (set_DEBUG false);;
    modify (set_ALLOWED_ORIGINS (Lst production_origins))
  else if String.eqb (ENVIRONMENT settings) "staging" then
    modify (set_ALLOWED_ORIGINS (Lst staging_origins))
  else mret tt.

(** The [settings] object a client of the module sees once the base
    constructor has returned [base], or the exception that the code after it
    raises.  What the base constructor itself may raise is not part of this
    function: see [imported]. *)
Definition settings (environ : gmap string string) (base : Settings)
  : result Settings :=
  match module_body environ base with
  | (Ok _, s) => Ok s
  | (Raise e, _) => Raise e
  end.

(** The call of the base-class constructor, the first statement of
    [__init__].  pydantic reads the environment and the [.env] file,
    validates every field against its declared type, and either returns the
    object or raises. *)
Definition base_constructor : Type := gmap string string -> result Settings.

(** Importing the module: the base constructor [super], then the rest of
    [__init__] and the overrides.  The result is the [settings] object a
    client of the module sees, or the exception that the import raises. *)
Definition imported (super : base_constructor)
    (environ : gmap string string) : result Settings :=
  match super environ with
  | Ok base => settings environ base
  | Raise e => Raise e
  end.

End config.

(** ** The process world of the start scripts *)

(** The keyword arguments of a call of [uvicorn.run]. *)
Record uvicorn_args := {
  app : string;
  host : string;
  port : Z;
  reload : bool;
  log_level : string;
  access_log : bool
}.

Record world := {
  environ : gmap string string;  (* os.environ *)
  stdout : list string;          (* the lines printed, oldest first *)
  slept : list Z;                (* the arguments of time.sleep *)
  served : list uvicorn_args     (* the calls of uvicorn.run *)
}.

Definition with_environ (f : gmap string string -> gmap string string)
    (w : world) : world :=
  {| environ := f (environ w); stdout := stdout w; slept := slept w;
     served := served w |}.

(** [os.getenv(key)] *)
Definition os_getenv (key : string) : M world (option string) :=
  fun w => (Ok (environ w !! key), w).

(** [os.getenv(key, fallback)] *)
Definition os_getenv_or (key fallback : string) : M world string :=
  fun w => (Ok (default fallback (environ w !! key)), w).

(** [os.environ[key] = value] *)
Definition os_environ_set (key value : string) : M world unit :=
  modify (with_environ (insert key value)).

Definition print (line : string) : M world unit :=
  modify (fun w =>
    {| environ := environ w; stdout := stdout w ++ [line]; slept := slept w;
       served := served w |}).

Definition sys_exit {A} (code : Z) : M world A := raise (SystemExit code).

Definition time_sleep (seconds : Z) : M world unit :=
  modify (fun w =>
    {| environ := environ w; stdout := stdout w; slept := slept w ++ [seconds];
       served := served w |}).

(** [uvicorn.run(...)].  The server is outside the repository: [server]
    tells, for the arguments of a call, whether the call returns ([None]) or
    raises an exception with the given message.  The call is recorded either
    way. *)
Definition uvicorn_run (server : uvicorn_args -> option string)
    (args : uvicorn_args) : M world unit :=
  fun w =>
    let w' := {| environ := environ w; stdout := stdout w; slept := slept w;
                 served := served w ++ [args] |} in
    match server args with
    | None => (Ok tt, w')
    | Some msg => (Raise (Exception msg), w')
    end.

(** [for x in l: body x] *)
Fixpoint for_each {St A} (l : list A) (body : A -> M St unit) : M St unit :=
  match l with
  | [] => mret tt
  | x :: xs => body x;; for_each xs body
  end.

(** A [for] loop that updates one local variable. *)
Fixpoint for_fold {St A B} (l : list A) (acc : B) (body : A -> B -> M St B)
  : M St B :=
  match l with
  | [] => mret acc
  | x :: xs => acc' ← body x acc; for_fold xs acc' body
  end.

(** [for key, value in vars.items(): if value: os.environ[key] = value] *)
Definition export_vars (vars : list (string * option string))
  : M world unit :=
  for_each vars (fun kv =>
    match kv.2 with
    | Some value => when (Py.nonempty value) (os_environ_set kv.1 value)
    | None => mret tt
    end).

(** The loop that collects the names in [required_vars] whose variable is
    unset or empty. *)
Definition collect_missing (required_vars : list string)
  : M world (list string) :=
  for_fold required_vars [] (fun var missing_vars =>
    value ← os_getenv var;
    if negb (Py.truthy value) then mret (missing_vars ++ [var])%list
    else mret missing_vars).

(** ** [universal_start.py]

    The module loads a [.env] file into [os.environ] when it is imported; the
    world a function starts in is the one after that load. *)

Module universal_start.

Definition detect_platform : M world string :=
  railway ← os_getenv "RAILWAY_ENVIRONMENT";
  if Py.truthy railway then mret "railway"
  else
    render ← os_getenv "RENDER";
    if Py.truthy render then mret "render"
    else mret "local".

Definition setup_railway_environment : M world unit :=
  PORT ← os_getenv_or "PORT" "8000";
  RAILWAY_ENVIRONMENT ← os_getenv_or "RAILWAY_ENVIRONMENT" "development";
  RAILWAY_PROJECT_ID ← os_getenv "RAILWAY_PROJECT_ID";
  RAILWAY_SERVICE_ID ← os_getenv "RAILWAY_SERVICE_ID";
  RAILWAY_DEPLOYMENT_ID ← os_getenv "RAILWAY_DEPLOYMENT_ID";
  let railway_vars :=
    [("PORT", Some PORT);
     ("RAILWAY_ENVIRONMENT", Some RAILWAY_ENVIRONMENT);
     ("RAILWAY_PROJECT_ID", RAILWAY_PROJECT_ID);
     ("RAILWAY_SERVICE_ID", RAILWAY_SERVICE_ID);
     ("RAILWAY_DEPLOYMENT_ID", RAILWAY_DEPLOYMENT_ID)] in
  (if String.eqb RAILWAY_ENVIRONMENT "production" then
     os_environ_set "ENVIRONMENT" "production";;
     os_environ_set "DEBUG" "false";;
     os_environ_set "LOG_LEVEL" "INFO"
   else if String.eqb RAILWAY_ENVIRONMENT "staging" then
     os_environ_set "ENVIRONMENT" "staging";;
     os_environ_set "DEBUG" "false";;
     os_environ_set "LOG_LEVEL" "INFO"
   else
     os_environ_set "ENVIRONMENT" "development";;
     os_environ_set "DEBUG" "true";;
     os_environ_set "LOG_LEVEL" "DEBUG");;
  export_vars railway_vars;;
  print ("🚂 Railway Environment: " +:+ RAILWAY_ENVIRONMENT);;
  print ("🔌 Port: " +:+ PORT);;
  print ("📊 Project ID: " +:+ Py.fmt RAILWAY_PROJECT_ID);;
  print ("🔧 Service ID: " +:+ Py.fmt RAILWAY_SERVICE_ID).

Definition setup_render_environment : M world unit :=
  PORT ← os_getenv_or "PORT" "8000";
  RENDER ← os_getenv_or "RENDER" "false";
  RENDER_EXTERNAL_URL ← os_getenv "RENDER_EXTERNAL_URL";
  RENDER_EXTERNAL_HOSTNAME ← os_getenv "RENDER_EXTERNAL_HOSTNAME";
  let render_vars :=
    [("PORT", Some PORT);
     ("RENDER", Some RENDER);
     ("RENDER_EXTERNAL_URL", RENDER_EXTERNAL_URL);
     ("RENDER_EXTERNAL_HOSTNAME", RENDER_EXTERNAL_HOSTNAME)] in
  when (String.eqb RENDER "true")
    (os_environ_set "ENVIRONMENT" "production";;
     os_environ_set "DEBUG" "false";;
     os_environ_set "LOG_LEVEL" "INFO");;
  export_vars render_vars;;
  print ("🎨 Render Environment: " +:+ RENDER);;
  print ("🔌 Port: " +:+ PORT);;
  print ("🌐 External URL: " +:+ Py.fmt RENDER_EXTERNAL_URL);;
  print ("🏠 External Hostname: " +:+ Py.fmt RENDER_EXTERNAL_HOSTNAME).

Definition setup_local_environment : M world unit :=
  print "💻 Local Development Environment";;
  PORT ← os_getenv_or "PORT" "8000";
  print ("🔌 Port: " +:+ PORT);;
  ENVIRONMENT ← os_getenv "ENVIRONMENT";
  when (negb (Py.truthy ENVIRONMENT))
    (os_environ_set "ENVIRONMENT" "development");;
  DEBUG ← os_getenv "DEBUG";
  when (negb (Py.truthy DEBUG)) (os_environ_set "DEBUG" "true");;
  LOG_LEVEL ← os_getenv "LOG_LEVEL";
  when (negb (Py.truthy LOG_LEVEL)) (os_environ_set "LOG_LEVEL" "DEBUG").

Definition setup_environment : M world unit :=
  platform ← detect_platform;
  print ("🚀 Starting AfterLight Backend on " +:+ Py.upper platform +:+ "...");;
  if String.eqb platform "railway" then setup_railway_environment
  else if String.eqb platform "render" then setup_render_environment
  else setup_local_environment.

Definition check_requirements : M world bool :=
  platform ← detect_platform;
  let required_vars :=
    if String.eqb platform "local" then ["JWT_SECRET"]
    else ["DATABASE_URL"; "JWT_SECRET"] in
  missing_vars ← collect_missing required_vars;
  match missing_vars with
  | _ :: _ =>
      print ("❌ Missing required environment variables: "
             +:+ Py.join ", " missing_vars);;
      (if String.eqb platform "railway" then
         print "Please set these in your Railway dashboard"
       else if String.eqb platform "render" then
         print "Please set these in your Render dashboard"
       else print "Please set these in your .env file");;
      mret false
  | [] => mret true
  end.

(** The "Get port" block of [main], up to the end of its [try]/[except]:
    the literal [$PORT] stands for the default, any other string that is not
    an integer is reported and replaced by the default. *)
Definition resolve_port : M world Z :=
  port_str ← os_getenv_or "PORT" "8000";
  let port_str := if String.eqb port_str "$PORT" then "8000" else port_str in
  try_except (int_of (Some port_str))
    (fun e => match e with ValueError => true | _ => false end)
    (fun _ =>
       print ("⚠️ Invalid PORT value: " +:+ port_str
              +:+ ", using default 8000");;
       mret 8000).

Definition main (server : uvicorn_args -> option string) : M world unit :=
  setup_environment;;
  ok ← check_requirements;
  when (negb ok)
    (print "❌ Startup failed due to missing environment variables";;
     sys_exit 1);;
  port ← resolve_port;
  print "✅ Environment setup complete";;
  print ("🌐 Starting server on port " +:+ Py.str port);;
  print ("📚 API docs will be available at http://0.0.0.0:"
         +:+ Py.str port +:+ "/docs");;
  print ("❤️ Health check at http://0.0.0.0:" +:+ Py.str port +:+ "/health");;
  platform ← detect_platform;
  let delay := if String.eqb platform "render" then 3 else 5 in
  print ("⏳ Waiting " +:+ Py.str delay
         +:+ " seconds for system to stabilize...");;
  time_sleep delay;;
  LOG_LEVEL ← os_getenv_or "LOG_LEVEL" "INFO";
  try_except
    (uvicorn_run server
       {| app := "app.main:app"; host := "0.0.0.0"; port := port;
          reload := false; log_level := Py.lower LOG_LEVEL;
          access_log := true |})
    is_Exception
    (fun e =>
       print ("❌ Failed to start server: " +:+ exn_str e);;
       sys_exit 1).

End universal_start.

(** ** [render_start.py] *)

Module render_start.

Definition setup_render_environment : M world unit :=
  PORT ← os_getenv_or "PORT" "8000";
  RENDER ← os_getenv_or "RENDER" "false";
  RENDER_EXTERNAL_URL ← os_getenv "RENDER_EXTERNAL_URL";
  RENDER_EXTERNAL_HOSTNAME ← os_getenv "RENDER_EXTERNAL_HOSTNAME";
  let render_vars :=
    [("PORT", Some PORT);
     ("RENDER", Some RENDER);
     ("RENDER_EXTERNAL_URL", RENDER_EXTERNAL_URL);
     ("RENDER_EXTERNAL_HOSTNAME", RENDER_EXTERNAL_HOSTNAME)] in
  when (String.eqb RENDER "true")
    (os_environ_set "ENVIRONMENT" "production";;
     os_environ_set "DEBUG" "false";;
     os_environ_set "LOG_LEVEL" "INFO");;
  export_vars render_vars;;
  print ("🎨 Render Environment: " +:+ RENDER);;
  print ("🔌 Port: " +:+ PORT);;
  print ("🌐 External URL: " +:+ Py.fmt RENDER_EXTERNAL_URL);;
  print ("🏠 External Hostname: " +:+ Py.fmt RENDER_EXTERNAL_HOSTNAME).

Definition check_render_requirements : M world bool :=
  let required_vars := ["DATABASE_URL"; "JWT_SECRET"] in
  missing_vars ← collect_missing required_vars;
  match missing_vars with
  | _ :: _ =>
      print ("❌ Missing required environment variables: "
             +:+ Py.join ", " missing_vars);;
      print "Please set these in your Render dashboard";;
      mret false
  | [] => mret true
  end.

(** The "Get port" block of [main], up to the end of its [try]/[except]: a
    string that is not an integer is reported and replaced by the default. *)
Definition resolve_port : M world Z :=
  port_str ← os_getenv_or "PORT" "8000";
  try_except (int_of (Some port_str))
    (fun e => match e with ValueError => true | _ => false end)
    (fun _ =>
       print ("⚠️ Invalid PORT value: " +:+ port_str
              +:+ ", using default 8000");;
       mret 8000).

Definition main (server : uvicorn_args -> option string) : M world unit :=
  print "🚀 Starting AfterLight Backend on Render...";;
  setup_render_environment;;
  ok ← check_render_requirements;
  when (negb ok)
    (print "❌ Startup failed due to missing environment variables";;
     sys_exit 1);;
  port ← resolve_port;
  print "✅ Environment setup complete";;
  print ("🌐 Starting server on port " +:+ Py.str port);;
  print ("📚 API docs will be available at http://0.0.0.0:"
         +:+ Py.str port +:+ "/docs");;
  print ("❤️ Health check at http://0.0.0.0:" +:+ Py.str port +:+ "/health");;
  print "⏳ Waiting 3 seconds for system to stabilize...";;
  time_sleep 3;;
  LOG_LEVEL ← os_getenv_or "LOG_LEVEL" "INFO";
  try_except
    (uvicorn_run server
       {| app := "app.main:app"; host := "0.0.0.0"; port := port;
          reload := false; log_level := Py.lower LOG_LEVEL;
          access_log := true |})
    is_Exception
    (fun e =>
       print ("❌ Failed to start server: " +:+ exn_str e);;
       sys_exit 1).

End render_start.

(** ** Vocabulary of the statements *)

(** [free c s]: the character [c] does not occur in [s]. *)
Fixpoint free (c : ascii) (s : string) : Prop :=
  match s with
  | EmptyString => True
  | String a r => a <> c /\ free c r
  end.

(** What the list accessors promise about every entry of a derived list. *)
Definition token (t : string) : Prop :=
  Py.nonempty t = true /\ Py.strip t = t /\ free "," t.

(** The [PORT] variable does not stop the code after the base constructor:
    it is unset, empty, or an integer literal that [int] accepts. *)
Definition port_usable (environ : gmap string string) : bool :=
  match environ !! "PORT" with
  | Some (String _ _ as p) => bool_decide (is_Some (Py.int p))
  | _ => true
  end.

(** The environment name [Settings] ends up with. *)
Definition resolved_environment (environ : gmap string string)
    (base : config.Settings) : string :=
  match environ !! "RAILWAY_ENVIRONMENT" with
  | Some (String _ _ as name) => name
  | _ => config.ENVIRONMENT base
  end.

(** [w'] is [w] after some more lines were printed; no pause was taken and
    the server was not called. *)
Definition extends (w w' : world) : Prop :=
  (exists out, stdout w' = (stdout w ++ out)%list)
  /\ slept w' = slept w /\ served w' = served w.

(** The environment variables outside [keys] are the same in [w] and [w']. *)
Definition unchanged_outside (keys : list string) (w w' : world) : Prop :=
  forall k, k ∉ keys -> environ w' !! k = environ w !! k.

(** [os.getenv('PORT', '8000')] gives the same string in [w] and [w']. *)
Definition same_port (w w' : world) : Prop :=
  default "8000" (environ w' !! "PORT") = default "8000" (environ w !! "PORT").

(** The platform tag as a function of the environment. *)
Definition platform_of (environ : gmap string string) : string :=
  if Py.truthy (environ !! "RAILWAY_ENVIRONMENT") then "railway"
  else if Py.truthy (environ !! "RENDER") then "render"
       else "local".

(** The names of [required] whose variable is unset or empty, in order. *)
Definition missing_vars (environ : gmap string string)
    (required : list string) : list string :=
  List.filter (fun var => negb (Py.truthy (environ !! var))) required.

(** The line that reports the missing variables. *)
Definition missing_line (missing : list string) : string :=
  "❌ Missing required environment variables: " +:+ Py.join ", " missing.

(** The line that reports an unusable [PORT]. *)
Definition invalid_port_line (port_str : string) : string :=
  "⚠️ Invalid PORT value: " +:+ port_str +:+ ", using default 8000".

(** The port each start script ends up with, as a function of the string
    that [os.getenv('PORT', '8000')] returns. *)
Definition universal_port (port_str : string) : Z :=
  if String.eqb port_str "$PORT" then 8000 else default 8000 (Py.int port_str).

Definition render_port (port_str : string) : Z :=
  default 8000 (Py.int port_str).

(** The arguments of the one call of [uvicorn.run]. *)
Definition launch (port : Z) (level : string) : uvicorn_args :=
  {| app := "app.main:app"; host := "0.0.0.0"; port := port;
     reload := false; log_level := level; access_log := true |}.

(** Two environments that differ at most in that a variable is unset in
    one and empty in the other. *)
Definition same_truthy (e1 e2 : gmap string string) : Prop :=
  forall k,
    e1 !! k = e2 !! k
    \/ (Py.truthy (e1 !! k) = false /\ Py.truthy (e2 !! k) = false).

(** *** The environment after normalization

    The environment each set-up function leaves behind, as a function of the
    environment it finds. *)

(** The effect of the export loop on the environment. *)
Definition exported (vars : list (string * option string))
    (e : gmap string string) : gmap string string :=
  foldl (fun e kv =>
           match kv.2 with
           | Some (String _ _ as v) => <[kv.1:=v]> e
           | _ => e
           end) e vars.

(** A variable that is given [fallback] when it is unset. *)
Definition filled (fallback : string) (o : option string) : option string :=
  match o with
  | None => Some fallback
  | _ => o
  end.

(** A variable that is given [fallback] when it is unset or empty. *)
Definition kept (fallback : string) (o : option string) : option string :=
  if Py.truthy o then o else Some fallback.

Definition railway_base (e : gmap string string) : gmap string string :=
  let name := default "development" (e !! "RAILWAY_ENVIRONMENT") in
  if String.eqb name "production" then
    <["LOG_LEVEL":="INFO"]>
      (<["DEBUG":="false"]> (<["ENVIRONMENT":="production"]> e))
  else if String.eqb name "staging" then
    <["LOG_LEVEL":="INFO"]>
      (<["DEBUG":="false"]> (<["ENVIRONMENT":="staging"]> e))
  else
    <["LOG_LEVEL":="DEBUG"]>
      (<["DEBUG":="true"]> (<["ENVIRONMENT":="development"]> e)).

Definition railway_env (e : gmap string string) : gmap string string :=
  exported
    [("PORT", Some (default "8000" (e !! "PORT")));
     ("RAILWAY_ENVIRONMENT",
      Some (default "development" (e !! "RAILWAY_ENVIRONMENT")));
     ("RAILWAY_PROJECT_ID", e !! "RAILWAY_PROJECT_ID");
     ("RAILWAY_SERVICE_ID", e !! "RAILWAY_SERVICE_ID");
     ("RAILWAY_DEPLOYMENT_ID", e !! "RAILWAY_DEPLOYMENT_ID")]
    (railway_base e).

Definition render_base (e : gmap string string) : gmap string string :=
  if String.eqb (default "false" (e !! "RENDER")) "true" then
    <["LOG_LEVEL":="INFO"]>
      (<["DEBUG":="false"]> (<["ENVIRONMENT":="production"]> e))
  else e.

Definition render_env (e : gmap string string) : gmap string string :=
  exported
    [("PORT", Some (default "8000" (e !! "PORT")));
     ("RENDER", Some (default "false" (e !! "RENDER")));
     ("RENDER_EXTERNAL_URL", e !! "RENDER_EXTERNAL_URL");
     ("RENDER_EXTERNAL_HOSTNAME", e !! "RENDER_EXTERNAL_HOSTNAME")]
    (render_base e).

Definition fill (key value : string) (e : gmap string string)
  : gmap string string :=
  if Py.truthy (e !! key) then e else <[key:=value]> e.

Definition local_env (e : gmap string string) : gmap string string :=
  fill "LOG_LEVEL" "DEBUG"
    (fill "DEBUG" "true" (fill "ENVIRONMENT" "development" e)).

Definition normalized (e : gmap string string) : gmap string string :=
  if Py.truthy (e !! "RAILWAY_ENVIRONMENT") then railway_env e
  else if Py.truthy (e !! "RENDER") then render_env e
       else local_env e.

(** The second line validation prints when it fails. *)
Definition dashboard_hint (platform : string) : string :=
  if String.eqb platform "railway"
  then "Please set these in your Railway dashboard"
  else if String.eqb platform "render"
       then "Please set these in your Render dashboard"
       else "Please set these in your .env file".

(** What the scripts print between port resolution and the server call. *)
Definition port_lines (port : Z) : list string :=
  ["✅ Environment setup complete";
   "🌐 Starting server on port " +:+ Py.str port;
   "📚 API docs will be available at http://0.0.0.0:" +:+ Py.str port
     +:+ "/docs";
   "❤️ Health check at http://0.0.0.0:" +:+ Py.str port +:+ "/health"].

(** The line printed when the server call raises. *)
Definition failure_lines (outcome : option string) : list string :=
  match outcome with
  | Some msg => ["❌ Failed to start server: " +:+ msg]
  | None => []
  end.

(** The warning each script prints for the string it reads for the port. *)
Definition universal_warning (port_str : string) : list string :=
  if String.eqb port_str "$PORT" then []
  else match Py.int port_str with
       | Some _ => []
       | None => [invalid_port_line port_str]
       end.

Definition render_warning (port_str : string) : list string :=
  match Py.int port_str with
  | Some _ => []
  | None => [invalid_port_line port_str]
  end.

(** The [settings] object in closed form, given the port it ends up with. *)
Definition resolved (environ : gmap string string) (base : config.Settings)
    (port : Z) : config.Settings :=
  let name := resolved_environment environ base in
  {| config.ENVIRONMENT := name;
     config.DEBUG := String.eqb name "development";
     config.PORT := port;
     config.ALLOWED_ORIGINS :=
       if String.eqb name "production" then config.Lst config.production_origins
       else if String.eqb name "staging" then config.Lst config.staging_origins
            else config.ALLOWED_ORIGINS base;
     config.ALLOWED_HOSTS := config.ALLOWED_HOSTS base;
     config.DATABASE_URL :=
       if Py.truthy (config.DATABASE_URL base) then config.DATABASE_URL base
       else if Py.nonempty (config.DATABASE_PASSWORD base)
            then Some (config.database_url_with_password base)
            else Some (config.database_url_without_password base);
     config.DATABASE_HOST := config.DATABASE_HOST base;
     config.DATABASE_PORT := config.DATABASE_PORT base;
     config.DATABASE_NAME := config.DATABASE_NAME base;
     config.DATABASE_USER := config.DATABASE_USER base;
     config.DATABASE_PASSWORD := config.DATABASE_PASSWORD base;
     config.REDIS_URL :=
       if Py.truthy (config.REDIS_URL base) then config.REDIS_URL base
       else Some (config.redis_url base);
     config.REDIS_HOST := config.REDIS_HOST base;
     config.REDIS_PORT := config.REDIS_PORT base;
     config.REDIS_DB := config.REDIS_DB base;
     config.ALLOWED_FILE_TYPES := config.ALLOWED_FILE_TYPES base |}.

(** The port [settings] ends up with. *)
Definition resolved_port (environ : gmap string string)
    (base : config.Settings) : Z :=
  match environ !! "PORT" with
  | Some (String _ _ as p) => default (config.PORT base) (Py.int p)
  | _ => config.PORT base
  end.

(** The base constructor refuses an empty [PORT].  The field is declared
    [int] and the empty string is no integer; the refusal is pydantic's, so
    it is a property asked of the parameter. *)
Definition rejects_empty_port (super : config.base_constructor) : Prop :=
  forall environ,
    environ !! "PORT" = Some "" -> exists e, super environ = Raise e.

(** A base constructor to instantiate the statements with: it takes every
    field from [base] except [PORT], which it reads from the environment and
    parses as [int] does. *)
Definition checked_port (base : config.Settings) : config.base_constructor :=
  fun environ =>
    match environ !! "PORT" with
    | Some p =>
        match Py.int p with
        | Some n => Ok (config.set_PORT n base)
        | None => Raise ValueError
        end
    | None => Ok base
    end.

(** [n] copies of the character [c]. *)
Fixpoint copies (n : nat) (c : ascii) : string :=
  match n with
  | O => EmptyString
  | S n => String c (copies n c)
  end.

(** A world in which nothing has been printed, no pause taken and the
    server not called. *)
Definition world_of (e : gmap string string) : world :=
  {| environ := e; stdout := []; slept := []; served := [] |}.

(** * Properties *)

(** ** Strings *)

Section strings.

Implicit Types (s t : string) (c : ascii) (l : list string).

Lemma append_inv_head s t1 t2 : s +:+ t1 = s +:+ t2 -> t1 = t2.
Proof.
  induction s as [|c s IH]; simpl; [done|].
  intros [= H]. by apply IH.
Qed.

Lemma rstrip_rstrip s : Py.rstrip (Py.rstrip s) = Py.rstrip s.
Proof.
  induction s as [|c s IH]; simpl; [done|].
  destruct (Py.rstrip s) as [|c' s'] eqn:E.
  - destruct (Py.isspace c) eqn:Ec; simpl; [done|]. by rewrite Ec.
  - simpl in *. by rewrite IH.
Qed.

(** A string that does not start with white space keeps its first
    character under [rstrip], unless it is empty. *)
Lemma lstrip_rstrip_lstrip s :
  Py.lstrip (Py.rstrip (Py.lstrip s)) = Py.rstrip (Py.lstrip s).
Proof.
  induction s as [|c s IH]; simpl; [done|].
  destruct (Py.isspace c) eqn:Ec; [done|].
  simpl. destruct (Py.rstrip s); rewrite ?Ec; simpl; by rewrite Ec.
Qed.

Lemma lstrip_strip s : Py.lstrip (Py.strip s) = Py.strip s.
Proof. apply lstrip_rstrip_lstrip. Qed.

Lemma strip_strip s : Py.strip (Py.strip s) = Py.strip s.
Proof.
  unfold Py.strip at 1. rewrite lstrip_strip.
  unfold Py.strip. apply rstrip_rstrip.
Qed.

Lemma free_lstrip c s : free c s -> free c (Py.lstrip s).
Proof.
  induction s as [|a s IH]; simpl; [done|].
  intros [Ha Hs]. destruct (Py.isspace a); simpl; auto.
Qed.

Lemma free_rstrip c s : free c s -> free c (Py.rstrip s).
Proof.
  induction s as [|a s IH]; simpl; [done|].
  intros [Ha Hs]. specialize (IH Hs).
  destruct (Py.rstrip s); [destruct (Py.isspace a)|]; simpl; auto.
Qed.

Lemma free_strip c s : free c s -> free c (Py.strip s).
Proof. intros H. by apply free_rstrip, free_lstrip. Qed.

Lemma split_not_nil c s : Py.split c s <> [].
Proof.
  destruct s as [|a s]; simpl; [done|].
  destruct (Ascii.eqb a c); [done|]. by destruct (Py.split c s).
Qed.

(** No piece of [s.split(c)] contains [c]. *)
Lemma split_free c s : Forall (free c) (Py.split c s).
Proof.
  induction s as [|a s IH]; simpl.
  - by repeat constructor.
  - destruct (Ascii.eqb a c) eqn:E.
    + by constructor.
    + apply Ascii.eqb_neq in E.
      destruct (Py.split c s) as [|p ps]; [by repeat constructor|].
      inversion IH; subst. constructor; simpl; auto.
Qed.

Lemma split_free_id c s : free c s -> Py.split c s = [s].
Proof.
  induction s as [|a s IH]; simpl; [done|].
  intros [Ha Hs]. apply Ascii.eqb_neq in Ha. rewrite Ha, (IH Hs). done.
Qed.

Lemma split_app c s t :
  free c s ->
  Py.split c (s +:+ String c t) = s :: Py.split c t.
Proof.
  induction s as [|a s IH]; simpl.
  - intros _. by rewrite Ascii.eqb_refl.
  - intros [Ha Hs]. apply Ascii.eqb_neq in Ha. by rewrite Ha, (IH Hs).
Qed.

(** Splitting a non-empty joined list of separator-free pieces gives the
    pieces back. *)
Lemma split_join c l :
  l <> [] -> Forall (free c) l ->
  Py.split c (Py.join (String c EmptyString) l) = l.
Proof.
  induction l as [|x l IH]; [done|].
  intros _ Hl. inversion Hl as [|? ? Hx Hl']; subst.
  destruct l as [|y l].
  - simpl. by apply split_free_id.
  - change (Py.join (String c "") (x :: y :: l))
      with (x +:+ String c (Py.join (String c "") (y :: l))).
    rewrite split_app by done. f_equal. by apply IH.
Qed.

End strings.

(** ** The list accessors of [Settings] *)

Section accessors.

Import config.

Lemma as_list_pieces (pieces : list string) :
  Forall (free ",") pieces ->
  Forall token
    (Py.strip <$> List.filter (fun x => Py.nonempty (Py.strip x)) pieces).
Proof.
  induction 1 as [|x l Hx Hl IH]; simpl; [constructor|].
  destruct (Py.nonempty (Py.strip x)) eqn:E; [|done].
  constructor; [|done].
  repeat split; [done|apply strip_strip|by apply free_strip].
Qed.

Lemma as_list_tokens (S : string) : Forall token (as_list (Str S)).
Proof. apply as_list_pieces, split_free. Qed.

(** A list of tokens is what the accessor derives from it. *)
Lemma filter_strip_tokens (l : list string) :
  Forall token l ->
  Py.strip <$> List.filter (fun x => Py.nonempty (Py.strip x)) l = l.
Proof.
  induction 1 as [|x l (Hne & Hs & _) Hl IH]; [done|].
  cbn [List.filter]. rewrite Hs, Hne, fmap_cons, Hs. by f_equal.
Qed.

Lemma as_list_join_tokens (l : list string) :
  Forall token l -> as_list (Str (Py.join "," l)) = l.
Proof.
  intros Hl. unfold as_list.
  destruct l as [|x l]; [done|].
  rewrite split_join; [by apply filter_strip_tokens|done|].
  eapply Forall_impl; [exact Hl|]. by intros t (_ & _ & ?).
Qed.

(** C9. For every delimited string [S], each of the three list accessors
    (origins, hosts, file types) splits [S] on commas, trims every piece
    and drops the empty ones: every derived entry is non-empty, trimmed and
    free of commas.  Joining the derived list with commas and deriving
    again gives the same sequence of entries. *)
Theorem list_derivation_idempotent (S : string) (self : Settings) :
  let derived := as_list (Str S) in
  (ALLOWED_ORIGINS self = Str S -> allowed_origins_list self = derived)
  /\ (ALLOWED_HOSTS self = Str S -> allowed_hosts_list self = derived)
  /\ (ALLOWED_FILE_TYPES self = Str S ->
      allowed_file_types_list self = derived)
  /\ derived
     = Py.strip <$>
         List.filter (fun x => Py.nonempty (Py.strip x)) (Py.split "," S)
  /\ Forall token derived
  /\ as_list (Str (Py.join "," derived)) = derived.
Proof.
  intros derived.
  unfold allowed_origins_list, allowed_hosts_list, allowed_file_types_list.
  repeat split; try (by intros ->).
  - apply as_list_tokens.
  - apply as_list_join_tokens, as_list_tokens.
Qed.

End accessors.

(** ** [Settings] construction *)

Section settings.

Import config.

Implicit Types (environ : gmap string string) (base : Settings).

Ltac run_init :=
  unfold Settings__init__, when, int_of;
  unfold mbind, M_bind, mret, M_ret, modify, get, raise.

(** The fields of [self] when [__init__] returns. *)
Lemma init_fields environ base :
  port_usable environ = true ->
  exists s,
    Settings__init__ environ base = (Ok tt, s)
    /\ ENVIRONMENT s = resolved_environment environ base
    /\ DEBUG s = String.eqb (ENVIRONMENT s) "development"
    /\ PORT s = match environ !! "PORT" with
                | Some (String _ _ as p) => default (PORT base) (Py.int p)
                | _ => PORT base
                end
    /\ DATABASE_URL s
       = (if Py.truthy (DATABASE_URL base) then DATABASE_URL base
          else if Py.nonempty (DATABASE_PASSWORD base)
               then Some (database_url_with_password base)
               else Some (database_url_without_password base))
    /\ REDIS_URL s
       = (if Py.truthy (REDIS_URL base) then REDIS_URL base
          else Some (redis_url base))
    /\ ALLOWED_ORIGINS s = ALLOWED_ORIGINS base.
Proof.
  unfold port_usable, resolved_environment. intros Hp. run_init.
  destruct base
    as [env dbg prt orig hosts [[|? ?]|] dh dp dn du [|? ?] [[|? ?]|]
          rh rp rd ft].
  all: destruct (environ !! "RAILWAY_ENVIRONMENT") as [[|? ?]|];
    destruct (environ !! "PORT") as [[|c p]|]; cbn [Py.truthy];
    try (apply bool_decide_eq_true in Hp as [n Hn]; rewrite Hn).
  all: eexists; split; [reflexivity|].
  all: cbn -[String.eqb database_url_with_password
               database_url_without_password redis_url].
  all: done.
Qed.

(** A [PORT] that is set, not empty and not an integer literal makes
    [__init__] raise [ValueError], whatever the other inputs. *)
Lemma init_raises environ base :
  port_usable environ = false ->
  exists s, Settings__init__ environ base = (Raise ValueError, s).
Proof.
  unfold port_usable. intros Hp. run_init.
  destruct (environ !! "PORT") as [[|c p]|]; try done.
  apply bool_decide_eq_false in Hp.
  destruct (Py.int (String c p)) eqn:E; [by destruct Hp|].
  destruct (environ !! "RAILWAY_ENVIRONMENT") as [[|? ?]|];
    cbn [Py.truthy]; eexists; reflexivity.
Qed.

(** The fields of the [settings] object of the module. *)
Lemma settings_fields environ base :
  port_usable environ = true ->
  exists s,
    settings environ base = Ok s
    /\ ENVIRONMENT s = resolved_environment environ base
    /\ DEBUG s = String.eqb (ENVIRONMENT s) "development"
    /\ DATABASE_URL s
       = (if Py.truthy (DATABASE_URL base) then DATABASE_URL base
          else if Py.nonempty (DATABASE_PASSWORD base)
               then Some (database_url_with_password base)
               else Some (database_url_without_password base))
    /\ REDIS_URL s
       = (if Py.truthy (REDIS_URL base) then REDIS_URL base
          else Some (redis_url base))
    /\ ALLOWED_ORIGINS s
       = (if String.eqb (ENVIRONMENT s) "production"
          then Lst production_origins
          else if String.eqb (ENVIRONMENT s) "staging"
               then Lst staging_origins
               else ALLOWED_ORIGINS base)
    /\ PORT s = match environ !! "PORT" with
                | Some (String _ _ as p) => default (PORT base) (Py.int p)
                | _ => PORT base
                end.
Proof.
  intros Hp.
  destruct (init_fields environ base Hp)
    as (s & Hrun & Henv & Hdbg & Hport & Hdb & Hredis & Horig).
  unfold settings, module_body.
  unfold mbind, M_bind, mret, M_ret, modify, get. rewrite Hrun.
  destruct (String.eqb (ENVIRONMENT s) "production") eqn:E1;
    [|destruct (String.eqb (ENVIRONMENT s) "staging") eqn:E2].
  all: eexists; split; [reflexivity|]; cbn.
  all: rewrite ?E1, ?E2; repeat split; try done.
  apply String.eqb_eq in E1. by rewrite E1.
Qed.

Lemma settings_raises environ base :
  port_usable environ = false -> settings environ base = Raise ValueError.
Proof.
  intros Hp. destruct (init_raises environ base Hp) as [s Hs].
  unfold settings, module_body, mbind, M_bind. by rewrite Hs.
Qed.

(** C3. When the construction of [settings] completes, post-construction
    overrides included, [DEBUG] is true exactly when the final
    [ENVIRONMENT] is "development", whatever [DEBUG] was before (the value
    read from the environment, the Railway-specific assignment).  The
    construction completes whenever [PORT] is usable. *)
Theorem debug_follows_environment environ base :
  port_usable environ = true ->
  exists s,
    settings environ base = Ok s
    /\ ENVIRONMENT s = resolved_environment environ base
    /\ (DEBUG s = true <-> ENVIRONMENT s = "development").
Proof.
  intros Hp.
  destruct (settings_fields environ base Hp) as (s & Hs & Henv & Hdbg & _).
  exists s. repeat split; try done; rewrite Hdbg.
  - apply String.eqb_eq.
  - intros ->. done.
Qed.

Lemma debug_follows_environment_witness :
  exists s,
    settings {[ "RAILWAY_ENVIRONMENT" := "staging"; "DEBUG" := "true" ]}
      (set_DEBUG true defaults) = Ok s
    /\ ENVIRONMENT s
       = resolved_environment
           {[ "RAILWAY_ENVIRONMENT" := "staging"; "DEBUG" := "true" ]}
           (set_DEBUG true defaults)
    /\ (DEBUG s = true <-> ENVIRONMENT s = "development").
Proof. apply debug_follows_environment. vm_compute. reflexivity. Defined.

(** C4. Whatever [ALLOWED_ORIGINS] was supplied: when the resolved
    [ENVIRONMENT] is "production" the origins accessor returns exactly the
    two production origins, when it is "staging" exactly the two staging
    origins, and for every other environment name the supplied value is
    kept. *)
Theorem origins_by_environment environ base :
  port_usable environ = true ->
  exists s,
    settings environ base = Ok s
    /\ (ENVIRONMENT s = "production" ->
        allowed_origins_list s
        = ["https://afterlight.app"; "https://www.afterlight.app"])
    /\ (ENVIRONMENT s = "staging" ->
        allowed_origins_list s
        = ["https://staging.afterlight.app";
           "https://staging-www.afterlight.app"])
    /\ (ENVIRONMENT s <> "production" -> ENVIRONMENT s <> "staging" ->
        ALLOWED_ORIGINS s = ALLOWED_ORIGINS base
        /\ allowed_origins_list s = as_list (ALLOWED_ORIGINS base)).
Proof.
  intros Hp.
  destruct (settings_fields environ base Hp)
    as (s & Hs & _ & _ & _ & _ & Horig & _).
  exists s. unfold allowed_origins_list. rewrite Horig.
  split; [done|]. split; [by intros ->|]. split; [by intros ->|].
  intros Hprod Hstag. apply String.eqb_neq in Hprod, Hstag.
  by rewrite Hprod, Hstag.
Qed.

Lemma origins_by_environment_witness :
  exists s,
    settings {[ "RAILWAY_ENVIRONMENT" := "production" ]}
      (set_ALLOWED_ORIGINS (Str "https://example.org , http://a.test")
         defaults) = Ok s
    /\ (ENVIRONMENT s = "production" ->
        allowed_origins_list s
        = ["https://afterlight.app"; "https://www.afterlight.app"])
    /\ (ENVIRONMENT s = "staging" ->
        allowed_origins_list s
        = ["https://staging.afterlight.app";
           "https://staging-www.afterlight.app"])
    /\ (ENVIRONMENT s <> "production" -> ENVIRONMENT s <> "staging" ->
        ALLOWED_ORIGINS s
        = ALLOWED_ORIGINS
            (set_ALLOWED_ORIGINS (Str "https://example.org , http://a.test")
               defaults)
        /\ allowed_origins_list s
           = as_list
               (ALLOWED_ORIGINS
                  (set_ALLOWED_ORIGINS
                     (Str "https://example.org , http://a.test")
                     defaults))).
Proof. apply origins_by_environment. vm_compute. reflexivity. Defined.

(** C5. When no full database URL is supplied (the field is unset or
    empty), [DATABASE_URL] is built from the user, password, host, port and
    name fields; with an empty password the credential segment is left
    out, so the URL reads postgresql://user@host:port/name and never
    postgresql://user:@host:port/name.  A supplied URL is kept as it
    is. *)
Theorem database_url_synthesis environ base :
  port_usable environ = true ->
  exists s,
    settings environ base = Ok s
    /\ (forall url, DATABASE_URL base = Some url -> url <> "" ->
        DATABASE_URL s = Some url)
    /\ (DATABASE_URL base = None \/ DATABASE_URL base = Some "" ->
        DATABASE_PASSWORD base = "" ->
        DATABASE_URL s
        = Some ("postgresql://" +:+ DATABASE_USER base
                +:+ "@" +:+ DATABASE_HOST base
                +:+ ":" +:+ Py.str (DATABASE_PORT base)
                +:+ "/" +:+ DATABASE_NAME base)
        /\ DATABASE_URL s
           <> Some ("postgresql://" +:+ DATABASE_USER base
                    +:+ ":@" +:+ DATABASE_HOST base
                    +:+ ":" +:+ Py.str (DATABASE_PORT base)
                    +:+ "/" +:+ DATABASE_NAME base))
    /\ (DATABASE_URL base = None \/ DATABASE_URL base = Some "" ->
        DATABASE_PASSWORD base <> "" ->
        DATABASE_URL s
        = Some ("postgresql://" +:+ DATABASE_USER base
                +:+ ":" +:+ DATABASE_PASSWORD base
                +:+ "@" +:+ DATABASE_HOST base
                +:+ ":" +:+ Py.str (DATABASE_PORT base)
                +:+ "/" +:+ DATABASE_NAME base)).
Proof.
  intros Hp.
  destruct (settings_fields environ base Hp)
    as (s & Hs & _ & _ & Hdb & _).
  exists s. split; [done|]. rewrite Hdb.
  assert (Hfalsy : DATABASE_URL base = None \/ DATABASE_URL base = Some "" ->
                   Py.truthy (DATABASE_URL base) = false)
    by (by intros [-> | ->]).
  split; [|split].
  - intros url -> Hne. by destruct url.
  - intros Hno Hpw. rewrite (Hfalsy Hno), Hpw. split; [done|].
    unfold database_url_without_password. intros [= H].
    do 2 apply append_inv_head in H. simpl in H. discriminate H.
  - intros Hno Hpw. rewrite (Hfalsy Hno).
    unfold database_url_with_password.
    by destruct (DATABASE_PASSWORD base).
Qed.

Lemma database_url_synthesis_witness :
  exists s,
    settings ∅ defaults = Ok s
    /\ (forall url, DATABASE_URL defaults = Some url -> url <> "" ->
        DATABASE_URL s = Some url)
    /\ (DATABASE_URL defaults = None \/ DATABASE_URL defaults = Some "" ->
        DATABASE_PASSWORD defaults = "" ->
        DATABASE_URL s
        = Some ("postgresql://" +:+ DATABASE_USER defaults
                +:+ "@" +:+ DATABASE_HOST defaults
                +:+ ":" +:+ Py.str (DATABASE_PORT defaults)
                +:+ "/" +:+ DATABASE_NAME defaults)
        /\ DATABASE_URL s
           <> Some ("postgresql://" +:+ DATABASE_USER defaults
                    +:+ ":@" +:+ DATABASE_HOST defaults
                    +:+ ":" +:+ Py.str (DATABASE_PORT defaults)
                    +:+ "/" +:+ DATABASE_NAME defaults))
    /\ (DATABASE_URL defaults = None \/ DATABASE_URL defaults = Some "" ->
        DATABASE_PASSWORD defaults <> "" ->
        DATABASE_URL s
        = Some ("postgresql://" +:+ DATABASE_USER defaults
                +:+ ":" +:+ DATABASE_PASSWORD defaults
                +:+ "@" +:+ DATABASE_HOST defaults
                +:+ ":" +:+ Py.str (DATABASE_PORT defaults)
                +:+ "/" +:+ DATABASE_NAME defaults)).
Proof. apply database_url_synthesis. vm_compute. reflexivity. Defined.

End settings.

(** ** Running the start scripts *)

Section scripts.

Implicit Types (w : world) (k key : string).

(** Unfold the monad and the primitive operations of the world. *)
Ltac run :=
  cbv [mbind M_bind mret M_ret modify get raise when
       os_getenv os_getenv_or os_environ_set print sys_exit time_sleep
       with_environ];
  cbn [environ stdout slept served].

(** Split membership in an explicit list into its cases. *)
Ltac members H :=
  repeat (apply elem_of_cons in H as [H|H]; [simplify_eq|]);
  try (by apply elem_of_nil in H).

(** Look up a key known to lie outside an explicit list of inserted
    keys. *)
Ltac outside H :=
  repeat (apply not_elem_of_cons in H as [? H]);
  rewrite ?lookup_insert_ne by done.

Lemma extends_refl w : extends w w.
Proof. repeat split. exists []. by rewrite app_nil_r. Qed.

Lemma extends_trans w1 w2 w3 : extends w1 w2 -> extends w2 w3 -> extends w1 w3.
Proof.
  intros ([o1 H1] & ? & ?) ([o2 H2] & ? & ?). repeat split; try congruence.
  exists (o1 ++ o2)%list. by rewrite H2, H1, app_assoc.
Qed.

Lemma extends_print line w : extends w (print line w).2.
Proof. repeat split. by exists [line]. Qed.

Lemma export_vars_cons key value vars w :
  export_vars ((key, value) :: vars) w
  = match value with
    | Some (String _ _ as v) =>
        export_vars vars (with_environ (insert key v) w)
    | _ => export_vars vars w
    end.
Proof. by destruct value as [[|c v]|]. Qed.

(** The export loop returns; every variable is as before or has taken a
    non-empty value of the list. *)
Lemma export_vars_run vars w :
  exists w',
    export_vars vars w = (Ok tt, w')
    /\ stdout w' = stdout w /\ slept w' = slept w /\ served w' = served w
    /\ forall k,
        environ w' !! k = environ w !! k
        \/ exists v, (k, Some v) ∈ vars /\ v <> ""
                     /\ environ w' !! k = Some v.
Proof.
  revert w. induction vars as [|[key value] vars IH]; intros w.
  - exists w. repeat split; auto.
  - rewrite export_vars_cons.
    assert (Hfurther : forall k w',
      (exists v, (k, Some v) ∈ vars /\ v <> ""
                 /\ environ w' !! k = Some v) ->
      exists v, (k, Some v) ∈ (key, value) :: vars /\ v <> ""
                /\ environ w' !! k = Some v).
    { intros k w' (v & ? & ? & ?). exists v.
      repeat split; try done. by apply list_elem_of_further. }
    destruct value as [[|c v]|].
    1, 3: destruct (IH w) as (w' & Hrun & ? & ? & ? & Hk);
      exists w'; repeat split; try done;
      intros k; destruct (Hk k); eauto.
    destruct (IH (with_environ (insert key (String c v)) w))
      as (w' & Hrun & ? & ? & ? & Hk).
    exists w'. repeat split; try done.
    intros k. destruct (Hk k) as [Hsame|?]; [|by eauto].
    cbn in Hsame. destruct (decide (key = k)) as [->|Hne].
    + right. exists (String c v). rewrite Hsame, lookup_insert_eq.
      repeat split; try done. apply list_elem_of_here.
    + left. by rewrite Hsame, lookup_insert_ne.
Qed.

(** Platform detection as a function of the environment. *)
Lemma detect_platform_run w :
  universal_start.detect_platform w = (Ok (platform_of (environ w)), w).
Proof.
  unfold universal_start.detect_platform, platform_of. run.
  by destruct (Py.truthy (environ w !! "RAILWAY_ENVIRONMENT")),
    (Py.truthy (environ w !! "RENDER")).
Qed.

Lemma setup_railway_run w :
  Py.truthy (environ w !! "RAILWAY_ENVIRONMENT") = true ->
  exists w',
    universal_start.setup_railway_environment w = (Ok tt, w')
    /\ extends w w'
    /\ unchanged_outside ["ENVIRONMENT"; "DEBUG"; "LOG_LEVEL"; "PORT"] w w'
    /\ same_port w w'
    /\ (environ w' !! "ENVIRONMENT", environ w' !! "DEBUG",
        environ w' !! "LOG_LEVEL")
       = let name :=
           default "development" (environ w !! "RAILWAY_ENVIRONMENT") in
         if String.eqb name "production"
         then (Some "production", Some "false", Some "INFO")
         else if String.eqb name "staging"
              then (Some "staging", Some "false", Some "INFO")
              else (Some "development", Some "true", Some "DEBUG").
Proof.
  intros Hr. unfold universal_start.setup_railway_environment. run.
  destruct w as [env out sl sv]. cbn [environ stdout slept served] in *.
  destruct (env !! "RAILWAY_ENVIRONMENT") as [r|] eqn:Er; [|done].
  cbn [default from_option id].
  destruct (String.eqb r "production") eqn:E1;
    [|destruct (String.eqb r "staging") eqn:E2].
  all: match goal with
  | |- context [export_vars ?vars ?w] =>
      destruct (export_vars_run vars w) as (w2 & -> & Hout & Hsl & Hsv & Hk)
  end.
  all: destruct w2 as [env2 out2 sl2 sv2];
    cbn [environ stdout slept served] in *; subst.
  all: eexists; (split; [reflexivity|]).
  all: unfold extends, unchanged_outside, same_port;
    cbn [environ stdout slept served].
  all: repeat match goal with |- _ /\ _ => split end; try done.
  all: try (rewrite <- !app_assoc; by eexists).
  all: try (intros k Hne; destruct (Hk k) as [->|(v & Hv & _ & ->)];
    [by outside Hne | members Hv; try done; by outside Hne]).
  all: try match goal with
  | |- default _ _ = default _ _ =>
      destruct (Hk "PORT") as [->|(v & Hv & _ & ->)];
      [by rewrite !lookup_insert_ne by done | by members Hv]
  end.
  all: match type of Hk with
  | forall k, _ !! k = ?mid !! k \/ _ =>
      assert (Hl : forall k, k ∈ ["ENVIRONMENT"; "DEBUG"; "LOG_LEVEL"] ->
                env2 !! k = mid !! k)
        by (intros k Hin; destruct (Hk k) as [->|(v & Hv & _ & _)];
            [done | members Hv; members Hin])
  end.
  all: rewrite !Hl by repeat constructor; by simplify_map_eq.
Qed.

Lemma setup_render_run w :
  exists w',
    universal_start.setup_render_environment w = (Ok tt, w')
    /\ extends w w'
    /\ unchanged_outside
         ["ENVIRONMENT"; "DEBUG"; "LOG_LEVEL"; "PORT"; "RENDER"] w w'
    /\ same_port w w'
    /\ (Py.truthy (environ w !! "RENDER") = true ->
        environ w' !! "RENDER" = environ w !! "RENDER")
    /\ (environ w' !! "ENVIRONMENT", environ w' !! "DEBUG",
        environ w' !! "LOG_LEVEL")
       = if String.eqb (default "false" (environ w !! "RENDER")) "true"
         then (Some "production", Some "false", Some "INFO")
         else (environ w !! "ENVIRONMENT", environ w !! "DEBUG",
               environ w !! "LOG_LEVEL").
Proof.
  unfold universal_start.setup_render_environment. run.
  destruct w as [env out sl sv]. cbn [environ stdout slept served] in *.
  destruct (String.eqb (default "false" (env !! "RENDER")) "true") eqn:E1.
  all: match goal with
  | |- context [export_vars ?vars ?w] =>
      destruct (export_vars_run vars w) as (w2 & -> & Hout & Hsl & Hsv & Hk)
  end.
  all: destruct w2 as [env2 out2 sl2 sv2];
    cbn [environ stdout slept served] in *; subst.
  all: eexists; (split; [reflexivity|]).
  all: unfold extends, unchanged_outside, same_port;
    cbn [environ stdout slept served].
  all: repeat match goal with |- _ /\ _ => split end; try done.
  all: try (rewrite <- !app_assoc; by eexists).
  all: try (intros k Hne; destruct (Hk k) as [->|(v & Hv & _ & ->)];
    [by outside Hne | members Hv; try done; by outside Hne]).
  all: try match goal with
  | |- default _ _ = default _ _ =>
      destruct (Hk "PORT") as [->|(v & Hv & _ & ->)];
      [by rewrite ?lookup_insert_ne by done | by members Hv]
  | |- _ -> _ =>
      intros Ht; destruct (Hk "RENDER") as [->|(v & Hv & _ & ->)];
      [by rewrite ?lookup_insert_ne by done
      | members Hv; by destruct (env !! "RENDER")]
  end.
  all: match type of Hk with
  | forall k, _ !! k = ?mid !! k \/ _ =>
      assert (Hl : forall k, k ∈ ["ENVIRONMENT"; "DEBUG"; "LOG_LEVEL"] ->
                env2 !! k = mid !! k)
        by (intros k Hin; destruct (Hk k) as [->|(v & Hv & _ & _)];
            [done | members Hv; members Hin])
  end.
  all: rewrite !Hl by repeat constructor; by simplify_map_eq.
Qed.

Lemma setup_render_same :
  render_start.setup_render_environment
  = universal_start.setup_render_environment.
Proof. reflexivity. Qed.

Lemma setup_local_run w :
  exists w',
    universal_start.setup_local_environment w = (Ok tt, w')
    /\ extends w w'
    /\ unchanged_outside ["ENVIRONMENT"; "DEBUG"; "LOG_LEVEL"] w w'
    /\ environ w' !! "ENVIRONMENT"
       = (if Py.truthy (environ w !! "ENVIRONMENT")
          then environ w !! "ENVIRONMENT" else Some "development")
    /\ environ w' !! "DEBUG"
       = (if Py.truthy (environ w !! "DEBUG")
          then environ w !! "DEBUG" else Some "true")
    /\ environ w' !! "LOG_LEVEL"
       = (if Py.truthy (environ w !! "LOG_LEVEL")
          then environ w !! "LOG_LEVEL" else Some "DEBUG").
Proof.
  unfold universal_start.setup_local_environment. run.
  destruct w as [env out sl sv]. cbn [environ stdout slept served] in *.
  repeat (cbn [negb environ stdout slept served];
          rewrite ?lookup_insert_ne by done;
          match goal with
          | |- context [Py.truthy (env !! ?k)] =>
              destruct (Py.truthy (env !! k)) eqn:?
          end).
  all: cbn [negb environ stdout slept served].
  all: eexists; (split; [reflexivity|]).
  all: unfold extends, unchanged_outside;
    cbn [environ stdout slept served].
  all: repeat match goal with |- _ /\ _ => split end; try done.
  all: try (rewrite <- !app_assoc; by eexists).
  all: try (intros k Hne; by outside Hne).
  all: by simplify_map_eq.
Qed.

(** The Normalizer returns; it may print, and it may change [ENVIRONMENT],
    [DEBUG], [LOG_LEVEL] and fill in an unset [PORT], nothing else. *)
Lemma setup_environment_run w :
  exists w',
    universal_start.setup_environment w = (Ok tt, w')
    /\ extends w w'
    /\ unchanged_outside ["ENVIRONMENT"; "DEBUG"; "LOG_LEVEL"; "PORT"] w w'
    /\ same_port w w'.
Proof.
  unfold universal_start.setup_environment.
  cbv [mbind M_bind]. rewrite detect_platform_run. unfold platform_of.
  destruct (Py.truthy (environ w !! "RAILWAY_ENVIRONMENT")) eqn:Er;
    [|destruct (Py.truthy (environ w !! "RENDER")) eqn:Ee].
  all: match goal with
  | |- context [print ?line ?w1] =>
      change (print line w1) with (Ok tt, (print line w1).2);
      set (w0 := (print line w1).2);
      assert (Hw0 : extends w1 w0 /\ environ w0 = environ w1)
        by (split; [apply extends_print|done])
  end.
  all: destruct Hw0 as [(Hout0 & Hsl0 & Hsv0) Henv0].
  all: cbv iota beta;
    match goal with |- context [String.eqb ?a "railway"] =>
      let b := eval vm_compute in (String.eqb a "railway") in
      change (String.eqb a "railway") with b
    end; cbv iota;
    try match goal with |- context [String.eqb ?a "render"] =>
      let b := eval vm_compute in (String.eqb a "render") in
      change (String.eqb a "render") with b
    end; cbv iota.
  - destruct (setup_railway_run w0) as (w' & -> & Hx & Hu & Hp & _);
      [by rewrite Henv0|].
    exists w'. split; [done|].
    split; [by eapply extends_trans|].
    unfold unchanged_outside, same_port in *. rewrite <- Henv0. done.
  - destruct (setup_render_run w0) as (w' & -> & Hx & Hu & Hp & Hrender & _).
    exists w'. split; [done|].
    split; [by eapply extends_trans|].
    unfold unchanged_outside, same_port in *. rewrite <- Henv0.
    split; [|done]. intros k Hk.
    destruct (decide (k = "RENDER")) as [->|Hne].
    + apply Hrender. by rewrite Henv0.
    + apply Hu. intros Hin. members Hin; try done.
      all: apply Hk; repeat constructor.
  - destruct (setup_local_run w0) as (w' & -> & Hx & Hu & _).
    exists w'. split; [done|].
    split; [by eapply extends_trans|].
    unfold unchanged_outside, same_port in *. rewrite <- Henv0.
    split.
    + intros k Hk. apply Hu. intros Hin. apply Hk.
      members Hin; repeat constructor.
    + by rewrite Hu by (intros Hin; members Hin).
Qed.

Lemma collect_missing_acc required acc w :
  for_fold required acc (fun var missing_vars =>
    value ← os_getenv var;
    if negb (Py.truthy value) then mret (missing_vars ++ [var])%list
    else mret missing_vars) w
  = (Ok (acc ++ missing_vars (environ w) required)%list, w).
Proof.
  revert acc. induction required as [|var required IH]; intros acc.
  - cbn. by rewrite app_nil_r.
  - cbn [for_fold missing_vars List.filter]. run.
    destruct (Py.truthy (environ w !! var)); cbn [negb].
    + apply IH.
    + fold (missing_vars (environ w) required).
      change (var :: missing_vars (environ w) required)
        with ([var] ++ missing_vars (environ w) required)%list.
      rewrite app_assoc. apply IH.
Qed.

Lemma collect_missing_run required w :
  collect_missing required w = (Ok (missing_vars (environ w) required), w).
Proof. apply collect_missing_acc. Qed.

Lemma check_requirements_run w :
  let platform := platform_of (environ w) in
  let missing :=
    missing_vars (environ w)
      (if String.eqb platform "local" then ["JWT_SECRET"]
       else ["DATABASE_URL"; "JWT_SECRET"]) in
  exists w',
    universal_start.check_requirements w
    = (Ok (if missing is [] then true else false), w')
    /\ extends w w' /\ environ w' = environ w
    /\ (missing <> [] -> missing_line missing ∈ stdout w').
Proof.
  intros platform missing.
  unfold universal_start.check_requirements. cbv [mbind M_bind].
  rewrite detect_platform_run.
  rewrite collect_missing_run. subst missing platform.
  set (platform := platform_of (environ w)).
  destruct (missing_vars _ _) as [|m ms].
  - exists w. repeat split; try done. apply extends_refl.
  - fold (missing_line (m :: ms)). run.
    assert (Hin : forall hint,
      missing_line (m :: ms)
      ∈ ((stdout w ++ [missing_line (m :: ms)]) ++ [hint])%list).
    { intros hint. rewrite !elem_of_app, !list_elem_of_singleton. auto. }
    destruct (String.eqb platform "railway");
      [|destruct (String.eqb platform "render")].
    all: eexists; split; [reflexivity|].
    all: repeat split; cbn [environ stdout slept served]; auto.
    all: rewrite <- app_assoc; by eexists.
Qed.

Lemma check_render_requirements_run w :
  let missing :=
    missing_vars (environ w) ["DATABASE_URL"; "JWT_SECRET"] in
  exists w',
    render_start.check_render_requirements w
    = (Ok (if missing is [] then true else false), w')
    /\ extends w w' /\ environ w' = environ w
    /\ (missing <> [] -> missing_line missing ∈ stdout w').
Proof.
  intros missing.
  unfold render_start.check_render_requirements. cbv [mbind M_bind].
  rewrite collect_missing_run. subst missing.
  destruct (missing_vars _ _) as [|m ms].
  - exists w. repeat split; try done. apply extends_refl.
  - fold (missing_line (m :: ms)). run.
    eexists; split; [reflexivity|].
    repeat split; cbn [environ stdout slept served]; auto.
    + rewrite <- app_assoc; by eexists.
    + intros _. rewrite !elem_of_app, !list_elem_of_singleton. auto.
Qed.

(** Port resolution of the universal script: the world is untouched but
    for the warning, printed exactly when the string is neither the
    literal [$PORT] nor an integer. *)
Lemma universal_resolve_port_run w :
  let port_str := default "8000" (environ w !! "PORT") in
  universal_start.resolve_port w
  = (Ok (universal_port port_str),
     if String.eqb port_str "$PORT" then w
     else match Py.int port_str with
          | Some _ => w
          | None => (print (invalid_port_line port_str) w).2
          end).
Proof.
  intros port_str. unfold universal_start.resolve_port, universal_port.
  cbv [mbind M_bind os_getenv_or try_except int_of mret M_ret raise].
  fold port_str.
  destruct (String.eqb port_str "$PORT"); [done|].
  by destruct (Py.int port_str).
Qed.

(** Port resolution of the Render script: the warning is printed exactly
    when the string is not an integer. *)
Lemma render_resolve_port_run w :
  let port_str := default "8000" (environ w !! "PORT") in
  render_start.resolve_port w
  = (Ok (render_port port_str),
     match Py.int port_str with
     | Some _ => w
     | None => (print (invalid_port_line port_str) w).2
     end).
Proof.
  intros port_str. unfold render_start.resolve_port, render_port.
  cbv [mbind M_bind os_getenv_or try_except int_of mret M_ret raise].
  fold port_str. by destruct (Py.int port_str).
Qed.

Lemma platform_of_unchanged w w' :
  unchanged_outside ["ENVIRONMENT"; "DEBUG"; "LOG_LEVEL"; "PORT"] w w' ->
  platform_of (environ w') = platform_of (environ w).
Proof.
  intros Hu. unfold platform_of.
  by rewrite !Hu by (intros Hin; members Hin).
Qed.

Lemma missing_vars_unchanged keys w w' required :
  unchanged_outside keys w w' ->
  Forall (fun var => var ∉ keys) required ->
  missing_vars (environ w') required = missing_vars (environ w) required.
Proof.
  intros Hu. unfold missing_vars.
  induction 1 as [|var required Hvar _ IH]; [done|].
  cbn [List.filter]. by rewrite (Hu var Hvar), IH.
Qed.

(** Solve [Forall (fun var => var ∉ keys) required] on explicit lists. *)
Ltac apart := repeat constructor; intros Hin; members Hin.

(** The universal script, from start to exit or to the call of the
    server. *)
Lemma universal_main_run server w :
  let platform := platform_of (environ w) in
  let missing :=
    missing_vars (environ w)
      (if String.eqb platform "local" then ["JWT_SECRET"]
       else ["DATABASE_URL"; "JWT_SECRET"]) in
  let port := universal_port (default "8000" (environ w !! "PORT")) in
  exists r w',
    universal_start.main server w = (r, w')
    /\ (exists out, stdout w' = (stdout w ++ out)%list)
    /\ match missing with
       | [] =>
           exists level,
             served w' = (served w ++ [launch port level])%list
             /\ slept w'
                = (slept w
                   ++ [if String.eqb platform "render" then 3 else 5])%list
             /\ r = (if server (launch port level) is Some _
                     then Raise (SystemExit 1) else Ok tt)
       | _ :: _ =>
           r = Raise (SystemExit 1)
           /\ served w' = served w /\ slept w' = slept w
           /\ missing_line missing ∈ stdout w'
       end.
Proof.
  intros platform missing port.
  unfold universal_start.main. cbv [mbind M_bind].
  destruct (setup_environment_run w) as (w1 & -> & Hx1 & Hu1 & Hp1).
  destruct (check_requirements_run w1) as (w2 & -> & Hx2 & He2 & Hline).
  rewrite (platform_of_unchanged w w1 Hu1) in *.
  fold platform in Hline |- *.
  rewrite (missing_vars_unchanged _ w w1 _ Hu1) in *
    by (destruct (String.eqb platform "local"); apart).
  fold missing in Hline |- *.
  pose proof (extends_trans _ _ _ Hx1 Hx2) as Hx.
  destruct missing as [|m ms].
  - cbn [negb when]. cbv [mret M_ret].
    rewrite universal_resolve_port_run.
    rewrite He2. unfold same_port in Hp1. rewrite Hp1. fold port.
    match goal with
    | |- context [print "✅ Environment setup complete" ?w0] =>
        assert (H3 : extends w w0 /\ environ w0 = environ w1);
        [|generalize dependent w0; intros w3 [Hx3 He3]]
    end.
    { rewrite <- He2. destruct (String.eqb _ _); [done|].
      destruct (Py.int _); [done|].
      split; [|done]. eapply extends_trans; [exact Hx|apply extends_print]. }
    destruct w3 as [env3 out3 sl3 sv3].
    destruct Hx3 as ([o3 Ho3] & Hsl3 & Hsv3).
    cbn [environ stdout slept served] in *. subst.
    run. rewrite detect_platform_run. cbn [environ stdout slept served].
    rewrite (platform_of_unchanged w w1 Hu1). fold platform.
    cbv iota beta.
    run. cbv [try_except uvicorn_run]. cbn [environ stdout slept served].
    set (level := Py.lower (default "INFO" (environ w1 !! "LOG_LEVEL"))).
    fold (launch port level).
    destruct (server (launch port level)) as [msg|] eqn:Es;
      cbn [is_Exception]; run.
    all: do 2 eexists; (split; [reflexivity|]);
      cbn [environ stdout slept served].
    all: split; [rewrite <- !app_assoc; by eexists|].
    all: exists level; by rewrite Es.
  - cbn [negb when]. run.
    do 2 eexists; (split; [reflexivity|]); cbn [environ stdout slept served].
    destruct Hx as ([o Ho] & Hsl & Hsv).
    split; [rewrite Ho, <- !app_assoc; by eexists|].
    repeat split; try done.
    rewrite elem_of_app. left. by apply Hline.
Qed.

(** The Render script, from start to exit or to the call of the server. *)
Lemma render_main_run server w :
  let missing :=
    missing_vars (environ w) ["DATABASE_URL"; "JWT_SECRET"] in
  let port := render_port (default "8000" (environ w !! "PORT")) in
  exists r w',
    render_start.main server w = (r, w')
    /\ (exists out, stdout w' = (stdout w ++ out)%list)
    /\ match missing with
       | [] =>
           exists level,
             served w' = (served w ++ [launch port level])%list
             /\ slept w' = (slept w ++ [3])%list
             /\ r = (if server (launch port level) is Some _
                     then Raise (SystemExit 1) else Ok tt)
       | _ :: _ =>
           r = Raise (SystemExit 1)
           /\ served w' = served w /\ slept w' = slept w
           /\ missing_line missing ∈ stdout w'
       end.
Proof.
  intros missing port.
  unfold render_start.main. cbv [mbind M_bind].
  match goal with
  | |- context [print ?line w] =>
      change (print line w) with (Ok tt, (print line w).2);
      pose proof (extends_print line w) as Hx0;
      assert (He0 : environ (print line w).2 = environ w) by done;
      generalize dependent ((print line w).2); intros w0 Hx0 He0
  end.
  cbv iota beta. rewrite setup_render_same.
  destruct (setup_render_run w0) as (w1 & -> & Hx1 & Hu1 & Hp1 & _).
  destruct (check_render_requirements_run w1)
    as (w2 & -> & Hx2 & He2 & Hline).
  rewrite (missing_vars_unchanged _ w0 w1 _ Hu1) in * by apart.
  rewrite He0 in Hline |- *. fold missing in Hline |- *.
  pose proof (extends_trans _ _ _ Hx0 (extends_trans _ _ _ Hx1 Hx2)) as Hx.
  destruct missing as [|m ms].
  - cbn [negb when]. cbv [mret M_ret].
    rewrite render_resolve_port_run.
    rewrite He2. unfold same_port in Hp1. rewrite Hp1, He0. fold port.
    match goal with
    | |- context [print "✅ Environment setup complete" ?w0] =>
        assert (H3 : extends w w0 /\ environ w0 = environ w1);
        [|generalize dependent w0; intros w3 [Hx3 He3]]
    end.
    { rewrite <- He2. destruct (Py.int _); [done|].
      split; [|done]. eapply extends_trans; [exact Hx|apply extends_print]. }
    destruct w3 as [env3 out3 sl3 sv3].
    destruct Hx3 as ([o3 Ho3] & Hsl3 & Hsv3).
    cbn [environ stdout slept served] in *. subst.
    run. cbv [try_except uvicorn_run]. cbn [environ stdout slept served].
    set (level := Py.lower (default "INFO" (environ w1 !! "LOG_LEVEL"))).
    fold (launch port level).
    destruct (server (launch port level)) as [msg|] eqn:Es;
      cbn [is_Exception]; run.
    all: do 2 eexists; (split; [reflexivity|]);
      cbn [environ stdout slept served].
    all: split; [rewrite <- !app_assoc; by eexists|].
    all: exists level; by rewrite Es.
  - cbn [negb when]. run.
    do 2 eexists; (split; [reflexivity|]); cbn [environ stdout slept served].
    destruct Hx as ([o Ho] & Hsl & Hsv).
    split; [rewrite Ho, <- !app_assoc; by eexists|].
    repeat split; try done.
    rewrite elem_of_app. left. by apply Hline.
Qed.

(** The Normalizer prints its banner, then runs the set-up of the detected
    platform. *)
Lemma setup_environment_dispatch w :
  let w0 :=
    (print ("🚀 Starting AfterLight Backend on "
            +:+ Py.upper (platform_of (environ w)) +:+ "...") w).2 in
  universal_start.setup_environment w
  = if Py.truthy (environ w !! "RAILWAY_ENVIRONMENT")
    then universal_start.setup_railway_environment w0
    else if Py.truthy (environ w !! "RENDER")
         then universal_start.setup_render_environment w0
         else universal_start.setup_local_environment w0.
Proof.
  unfold universal_start.setup_environment.
  cbv [mbind M_bind]. rewrite detect_platform_run. unfold platform_of.
  by destruct (Py.truthy (environ w !! "RAILWAY_ENVIRONMENT")),
    (Py.truthy (environ w !! "RENDER")).
Qed.

(** C8. Platform detection returns a tag and leaves the world as it was.
    The tag is "railway" when the Railway signal is present, whether or not
    the Render signal is; otherwise "render" when the Render signal is
    present; otherwise "local".  The tag depends on the environment
    only. *)
Theorem detect_platform_priority w :
  exists tag,
    universal_start.detect_platform w = (Ok tag, w)
    /\ (Py.truthy (environ w !! "RAILWAY_ENVIRONMENT") = true ->
        tag = "railway")
    /\ (Py.truthy (environ w !! "RAILWAY_ENVIRONMENT") = false ->
        Py.truthy (environ w !! "RENDER") = true -> tag = "render")
    /\ (Py.truthy (environ w !! "RAILWAY_ENVIRONMENT") = false ->
        Py.truthy (environ w !! "RENDER") = false -> tag = "local")
    /\ (forall w', environ w' = environ w ->
        universal_start.detect_platform w' = (Ok tag, w')).
Proof.
  exists (platform_of (environ w)). split; [apply detect_platform_run|].
  unfold platform_of. repeat split.
  - by intros ->.
  - by intros -> ->.
  - by intros -> ->.
  - intros w' <-. apply detect_platform_run.
Qed.

(** C7. Whatever the environment held before: when [RAILWAY_ENVIRONMENT]
    is "production", the Normalizer returns with [ENVIRONMENT] set to
    "production", [DEBUG] to "false" and [LOG_LEVEL] to "INFO"; so does the
    Railway set-up when called on its own. *)
Theorem railway_production_normalized w :
  environ w !! "RAILWAY_ENVIRONMENT" = Some "production" ->
  (exists w',
     universal_start.setup_environment w = (Ok tt, w')
     /\ environ w' !! "ENVIRONMENT" = Some "production"
     /\ environ w' !! "DEBUG" = Some "false"
     /\ environ w' !! "LOG_LEVEL" = Some "INFO")
  /\ (exists w',
       universal_start.setup_railway_environment w = (Ok tt, w')
       /\ environ w' !! "ENVIRONMENT" = Some "production"
       /\ environ w' !! "DEBUG" = Some "false"
       /\ environ w' !! "LOG_LEVEL" = Some "INFO").
Proof.
  intros Hr.
  assert (Hgen : forall w0, environ w0 = environ w ->
    exists w',
      universal_start.setup_railway_environment w0 = (Ok tt, w')
      /\ environ w' !! "ENVIRONMENT" = Some "production"
      /\ environ w' !! "DEBUG" = Some "false"
      /\ environ w' !! "LOG_LEVEL" = Some "INFO").
  { intros w0 He.
    destruct (setup_railway_run w0) as (w' & Hrun & _ & _ & _ & Ht).
    { by rewrite He, Hr. }
    rewrite He, Hr in Ht. cbn in Ht. injection Ht as H1 H2 H3.
    by exists w'. }
  split; [|by apply Hgen].
  rewrite setup_environment_dispatch, Hr. cbn [Py.truthy].
  by apply Hgen.
Qed.

Lemma railway_production_normalized_witness :
  let w := {| environ := {[ "RAILWAY_ENVIRONMENT" := "production";
                            "ENVIRONMENT" := "staging";
                            "DEBUG" := "true";
                            "LOG_LEVEL" := "WARNING" ]};
              stdout := []; slept := []; served := [] |} in
  (exists w',
     universal_start.setup_environment w = (Ok tt, w')
     /\ environ w' !! "ENVIRONMENT" = Some "production"
     /\ environ w' !! "DEBUG" = Some "false"
     /\ environ w' !! "LOG_LEVEL" = Some "INFO")
  /\ (exists w',
       universal_start.setup_railway_environment w = (Ok tt, w')
       /\ environ w' !! "ENVIRONMENT" = Some "production"
       /\ environ w' !! "DEBUG" = Some "false"
       /\ environ w' !! "LOG_LEVEL" = Some "INFO").
Proof.
  apply railway_production_normalized. vm_compute. reflexivity.
Defined.

Lemma missing_vars_nil environ required :
  missing_vars environ required = []
  <-> forall var, var ∈ required -> Py.truthy (environ !! var) = true.
Proof.
  unfold missing_vars. induction required as [|x required IH]; cbn.
  - split; [|done]. intros _ var Hin. by apply elem_of_nil in Hin.
  - destruct (Py.truthy (environ !! x)) eqn:E; cbn.
    + rewrite IH. split.
      * intros H var Hin. apply elem_of_cons in Hin as [->|Hin]; auto.
      * intros H var Hin. apply H. by constructor.
    + split; [done|]. intros H.
      rewrite H in E by constructor. done.
Qed.

(** C2. Required-variable validation of the start scripts.  In the universal
    script the required set is {JWT_SECRET} when the detected platform is
    local and {DATABASE_URL, JWT_SECRET} otherwise; in the Render script it
    is {DATABASE_URL, JWT_SECRET}.  Validation passes exactly when every
    required variable is set and not empty.  Otherwise the script prints the
    missing names and exits with code 1 without calling the server; when
    validation passes the server is called.  In particular, with only
    [JWT_SECRET] set, the universal script calls the server. *)
Theorem required_variables server w :
  let platform := platform_of (environ w) in
  let required :=
    if String.eqb platform "local" then ["JWT_SECRET"]
    else ["DATABASE_URL"; "JWT_SECRET"] in
  let missing := missing_vars (environ w) required in
  let missing_render :=
    missing_vars (environ w) ["DATABASE_URL"; "JWT_SECRET"] in
  universal_start.detect_platform w = (Ok platform, w)
  /\ (missing = []
      <-> forall var, var ∈ required -> Py.truthy (environ w !! var) = true)
  /\ (exists r w',
        universal_start.main server w = (r, w')
        /\ (missing <> [] ->
            r = Raise (SystemExit 1)
            /\ ("❌ Missing required environment variables: "
                +:+ Py.join ", " missing) ∈ stdout w'
            /\ served w' = served w)
        /\ (missing = [] ->
            exists args, served w' = (served w ++ [args])%list))
  /\ (exists r w',
        render_start.main server w = (r, w')
        /\ (missing_render <> [] ->
            r = Raise (SystemExit 1)
            /\ ("❌ Missing required environment variables: "
                +:+ Py.join ", " missing_render) ∈ stdout w'
            /\ served w' = served w)
        /\ (missing_render = [] ->
            exists args, served w' = (served w ++ [args])%list))
  /\ (forall secret,
        secret <> "" -> environ w = {[ "JWT_SECRET" := secret ]} ->
        platform = "local" /\ missing = []
        /\ exists r w' level,
             universal_start.main server w = (r, w')
             /\ served w' = (served w ++ [launch 8000 level])%list).
Proof.
  intros platform required missing missing_render.
  split; [apply detect_platform_run|].
  split; [apply missing_vars_nil|].
  split; [|split].
  - destruct (universal_main_run server w) as (r & w' & Hrun & _ & H).
    exists r, w'. split; [done|].
    fold platform required missing in H.
    destruct missing as [|m ms].
    + split; [done|]. intros _.
      destruct H as (level & Hs & _). eauto.
    + split; [|done]. intros _.
      destruct H as (-> & Hs & _ & Hl). done.
  - destruct (render_main_run server w) as (r & w' & Hrun & _ & H).
    exists r, w'. split; [done|].
    fold missing_render in H.
    destruct missing_render as [|m ms].
    + split; [done|]. intros _.
      destruct H as (level & Hs & _). eauto.
    + split; [|done]. intros _.
      destruct H as (-> & Hs & _ & Hl). done.
  - intros secret Hne He.
    assert (Hlocal : platform = "local").
    { subst platform. unfold platform_of. rewrite He.
      by rewrite !lookup_singleton_ne. }
    assert (Hnone : missing = []).
    { subst missing required. rewrite Hlocal, He. cbn.
      rewrite lookup_singleton_eq. by destruct secret. }
    repeat split; try done.
    destruct (universal_main_run server w) as (r & w' & Hrun & _ & H).
    fold platform required missing in H. rewrite Hnone in H.
    destruct H as (level & Hs & _).
    exists r, w', level. split; [done|].
    by rewrite Hs, He, lookup_singleton_ne.
Qed.

(** C6 fails on the Render script.  With [PORT] set to the literal [$PORT],
    the universal script substitutes the default before it parses, and
    prints nothing.  The Render script has no such case: it hands the
    literal to [int], the parse raises [ValueError], and its handler prints
    the warning and falls back to 8000.  Neither script fails: both go on to
    call the server on port 8000, and the result then depends on the server
    alone. *)
Theorem placeholder_port server w :
  environ w !! "PORT" = Some "$PORT" ->
  universal_start.resolve_port w = (Ok 8000, w)
  /\ int_of (Some "$PORT") w = (Raise ValueError, w)
  /\ render_start.resolve_port w
     = (Ok 8000,
        (print "⚠️ Invalid PORT value: $PORT, using default 8000" w).2)
  /\ (missing_vars (environ w)
        (if String.eqb (platform_of (environ w)) "local" then ["JWT_SECRET"]
         else ["DATABASE_URL"; "JWT_SECRET"]) = [] ->
      exists r w' level,
        universal_start.main server w = (r, w')
        /\ served w' = (served w ++ [launch 8000 level])%list
        /\ r = (if server (launch 8000 level) is Some _
                then Raise (SystemExit 1) else Ok tt))
  /\ (missing_vars (environ w) ["DATABASE_URL"; "JWT_SECRET"] = [] ->
      exists r w' level,
        render_start.main server w = (r, w')
        /\ served w' = (served w ++ [launch 8000 level])%list
        /\ r = (if server (launch 8000 level) is Some _
                then Raise (SystemExit 1) else Ok tt)).
Proof.
  intros Hport. repeat split.
  - rewrite universal_resolve_port_run. by rewrite Hport.
  - rewrite render_resolve_port_run. by rewrite Hport.
  - intros Hnone.
    destruct (universal_main_run server w) as (r & w' & Hrun & _ & H).
    rewrite Hnone, Hport in H. destruct H as (level & Hs & _ & Hr).
    by exists r, w', level.
  - intros Hnone.
    destruct (render_main_run server w) as (r & w' & Hrun & _ & H).
    rewrite Hnone, Hport in H. destruct H as (level & Hs & _ & Hr).
    by exists r, w', level.
Qed.

Lemma placeholder_port_witness :
  let server := fun _ : uvicorn_args => @None string in
  let w := {| environ := {[ "PORT" := "$PORT"; "JWT_SECRET" := "s3cret";
                            "DATABASE_URL" := "postgresql://db/afterlight";
                            "RENDER" := "true" ]};
              stdout := []; slept := []; served := [] |} in
  universal_start.resolve_port w = (Ok 8000, w)
  /\ int_of (Some "$PORT") w = (Raise ValueError, w)
  /\ render_start.resolve_port w
     = (Ok 8000,
        (print "⚠️ Invalid PORT value: $PORT, using default 8000" w).2)
  /\ (missing_vars (environ w)
        (if String.eqb (platform_of (environ w)) "local" then ["JWT_SECRET"]
         else ["DATABASE_URL"; "JWT_SECRET"]) = [] ->
      exists r w' level,
        universal_start.main server w = (r, w')
        /\ served w' = (served w ++ [launch 8000 level])%list
        /\ r = (if server (launch 8000 level) is Some _
                then Raise (SystemExit 1) else Ok tt))
  /\ (missing_vars (environ w) ["DATABASE_URL"; "JWT_SECRET"] = [] ->
      exists r w' level,
        render_start.main server w = (r, w')
        /\ served w' = (served w ++ [launch 8000 level])%list
        /\ r = (if server (launch 8000 level) is Some _
                then Raise (SystemExit 1) else Ok tt)).
Proof. apply placeholder_port. vm_compute. reflexivity. Defined.

End scripts.

(** ** The two port policies *)

Section port_policies.

Import config.

Lemma universal_port_fallback s : Py.int s = None -> universal_port s = 8000.
Proof.
  intros Hs. unfold universal_port. rewrite Hs.
  by destruct (String.eqb s "$PORT").
Qed.

Lemma port_unusable environ s :
  environ !! "PORT" = Some s -> Py.int s = None -> s <> "" ->
  port_usable environ = false.
Proof.
  intros He Hs Hne. unfold port_usable. rewrite He.
  destruct s as [|c s]; [done|]. rewrite Hs.
  apply bool_decide_eq_false. by intros [n Hn].
Qed.

(** C1, as amended.  Let [s] be a [PORT] value that [int] does not accept.
    Both start scripts resolve the port to 8000 and, when the required
    variables are there, go on to call the server on port 8000; they print
    the warning, except that the universal script replaces the literal
    [$PORT] by the default without a message.  Importing the settings module
    fails: once the base constructor has returned, the port step of
    [Settings.__init__] raises [ValueError].  An empty [s] is the one value
    the port step would skip; there the failure is the base constructor's,
    which is asked to refuse an empty [PORT]. *)
Theorem port_policies_diverge s (super : base_constructor) :
  Py.int s = None ->
  (s = "" -> rejects_empty_port super) ->
  (forall w, environ w !! "PORT" = Some s ->
     universal_start.resolve_port w
     = (Ok 8000,
        if String.eqb s "$PORT" then w
        else (print ("⚠️ Invalid PORT value: " +:+ s
                     +:+ ", using default 8000") w).2)
     /\ render_start.resolve_port w
        = (Ok 8000,
           (print ("⚠️ Invalid PORT value: " +:+ s
                   +:+ ", using default 8000") w).2))
  /\ (forall server w, environ w !! "PORT" = Some s ->
      missing_vars (environ w)
        (if String.eqb (platform_of (environ w)) "local" then ["JWT_SECRET"]
         else ["DATABASE_URL"; "JWT_SECRET"]) = [] ->
      exists r w' level,
        universal_start.main server w = (r, w')
        /\ served w' = (served w ++ [launch 8000 level])%list)
  /\ (forall server w, environ w !! "PORT" = Some s ->
      missing_vars (environ w) ["DATABASE_URL"; "JWT_SECRET"] = [] ->
      exists r w' level,
        render_start.main server w = (r, w')
        /\ served w' = (served w ++ [launch 8000 level])%list)
  /\ (forall environ, environ !! "PORT" = Some s ->
      (exists e, imported super environ = Raise e)
      /\ (forall base, super environ = Ok base ->
          (exists self,
             Settings__init__ environ base = (Raise ValueError, self))
          /\ settings environ base = Raise ValueError
          /\ imported super environ = Raise ValueError)).
Proof.
  intros Hs Hempty. split; [|split; [|split]].
  - intros w Hport. split.
    + rewrite universal_resolve_port_run, Hport. cbn [default from_option id].
      rewrite (universal_port_fallback s Hs), Hs.
      by destruct (String.eqb s "$PORT").
    + rewrite render_resolve_port_run, Hport. cbn [default from_option id].
      unfold render_port. by rewrite Hs.
  - intros server w Hport Hnone.
    destruct (universal_main_run server w) as (r & w' & Hrun & _ & H).
    rewrite Hnone, Hport in H. destruct H as (level & Hsv & _).
    cbn [default from_option id] in Hsv.
    rewrite (universal_port_fallback s Hs) in Hsv.
    by exists r, w', level.
  - intros server w Hport Hnone.
    destruct (render_main_run server w) as (r & w' & Hrun & _ & H).
    rewrite Hnone, Hport in H. destruct H as (level & Hsv & _).
    cbn [default from_option id] in Hsv.
    unfold render_port in Hsv. rewrite Hs in Hsv.
    by exists r, w', level.
  - intros environ Hport.
    destruct (decide (s = "")) as [->|Hne].
    + destruct (Hempty eq_refl environ Hport) as [e He].
      unfold imported. rewrite He. split; [by exists e|]. by intros base.
    + pose proof (port_unusable environ s Hport Hs Hne) as Hbad.
      assert (Hbody : forall base,
                 (exists self,
                    Settings__init__ environ base = (Raise ValueError, self))
                 /\ settings environ base = Raise ValueError).
      { intros base. split; [by apply init_raises|by apply settings_raises]. }
      unfold imported. destruct (super environ) as [base|e] eqn:Hsuper.
      * destruct (Hbody base) as [Hinit Hset]. split; [by eexists|].
        intros base' [= <-]. by rewrite Hset.
      * split; [by exists e|]. by intros base.
Qed.

Lemma port_policies_diverge_witness :
  let s := "" in
  let super := checked_port defaults in
  (forall w, environ w !! "PORT" = Some s ->
     universal_start.resolve_port w
     = (Ok 8000,
        if String.eqb s "$PORT" then w
        else (print ("⚠️ Invalid PORT value: " +:+ s
                     +:+ ", using default 8000") w).2)
     /\ render_start.resolve_port w
        = (Ok 8000,
           (print ("⚠️ Invalid PORT value: " +:+ s
                   +:+ ", using default 8000") w).2))
  /\ (forall server w, environ w !! "PORT" = Some s ->
      missing_vars (environ w)
        (if String.eqb (platform_of (environ w)) "local" then ["JWT_SECRET"]
         else ["DATABASE_URL"; "JWT_SECRET"]) = [] ->
      exists r w' level,
        universal_start.main server w = (r, w')
        /\ served w' = (served w ++ [launch 8000 level])%list)
  /\ (forall server w, environ w !! "PORT" = Some s ->
      missing_vars (environ w) ["DATABASE_URL"; "JWT_SECRET"] = [] ->
      exists r w' level,
        render_start.main server w = (r, w')
        /\ served w' = (served w ++ [launch 8000 level])%list)
  /\ (forall environ, environ !! "PORT" = Some s ->
      (exists e, imported super environ = Raise e)
      /\ (forall base, super environ = Ok base ->
          (exists self,
             Settings__init__ environ base = (Raise ValueError, self))
          /\ settings environ base = Raise ValueError
          /\ imported super environ = Raise ValueError)).
Proof.
  intros s super. apply (port_policies_diverge s super).
  - reflexivity.
  - intros _ environ Hport. exists ValueError.
    subst super. unfold checked_port. by rewrite Hport.
Defined.

(** C1 as first stated fails at the literal [$PORT]: [int] does not accept
    it, yet the universal script resolves it to 8000 without printing
    anything. *)
Lemma port_policies_counterexample :
  Py.int "$PORT" = None
  /\ (let w := {| environ := {[ "PORT" := "$PORT" ]};
                  stdout := []; slept := []; served := [] |} in
      universal_start.resolve_port w = (Ok 8000, w)
      /\ stdout (universal_start.resolve_port w).2 = []).
Proof.
  split; [reflexivity|]. vm_compute. split; reflexivity.
Qed.

End port_policies.

(** ** Worked examples *)

Example int_samples :
  Py.int <$> ["8000"; " 80 "; "+5"; "-5"; "1_000"; "007"; "0_0"]
  = Some <$> [8000; 80; 5; -5; 1000; 7; 0].
Proof. reflexivity. Qed.

(** The limit on the number of digits: 4300 digits are read, 4301 are not,
    whatever the digits are; the sign and white space do not count. *)
Example int_digit_limit :
  bool_decide (is_Some (Py.int (copies 4300 "1"))) = true
  /\ bool_decide (is_Some (Py.int (" -" +:+ copies 4300 "9" +:+ " "))) = true
  /\ Py.int (copies 4301 "1") = None
  /\ Py.int (copies 4301 "0") = None
  /\ Py.int ("-" +:+ copies 4301 "9") = None.
Proof. vm_compute. repeat split; reflexivity. Qed.

(** The port step refuses what [int] refuses, a literal of 4301 digits
    included, whatever object the base constructor has returned. *)
Example port_step_rejects :
  config.settings {[ "PORT" := "abc" ]} config.defaults = Raise ValueError
  /\ config.settings {[ "PORT" := "1.0" ]} config.defaults = Raise ValueError
  /\ config.settings {[ "PORT" := copies 4301 "1" ]} config.defaults
     = Raise ValueError.
Proof. vm_compute. repeat split; reflexivity. Qed.

Example int_rejects :
  Py.int <$> [""; " "; "+"; "+-5"; "+ 5"; "1__0"; "_1"; "1_"; "0x10";
              "$PORT"; "abc"; "8 0"; "1_ "; "1.0"]
  = replicate 14 None.
Proof. reflexivity. Qed.

Example split_samples :
  Py.split "," "a,,b, c ," = ["a"; ""; "b"; " c "; ""]
  /\ Py.split "," "" = [""].
Proof. split; reflexivity. Qed.

Example str_samples : Py.str <$> [0; 5432; -5] = ["0"; "5432"; "-5"].
Proof. reflexivity. Qed.

Example default_origins :
  config.allowed_origins_list config.defaults
  = ["http://localhost:3000"; "http://localhost:3001";
     "https://afterlight.app"; "https://www.afterlight.app"].
Proof. reflexivity. Qed.

Example messy_origins :
  config.as_list (config.Str " https://a.test ,, http://b.test,  ,")
  = ["https://a.test"; "http://b.test"].
Proof. reflexivity. Qed.

Example default_urls :
  (fun s => (config.DATABASE_URL s, config.REDIS_URL s, config.DEBUG s))
    <$> match config.settings ∅ config.defaults with
        | Ok s => Some s
        | Raise _ => None
        end
  = Some (Some "postgresql://postgres@localhost:5432/afterlight",
          Some "redis://localhost:6379/0", true).
Proof. vm_compute. reflexivity. Qed.

Example password_url :
  config.database_url_with_password
    (config.set_DATABASE_URL None
       {| config.ENVIRONMENT := "development"; config.DEBUG := true;
          config.PORT := 8000;
          config.ALLOWED_ORIGINS := config.Str "";
          config.ALLOWED_HOSTS := config.Str "";
          config.DATABASE_URL := None; config.DATABASE_HOST := "db";
          config.DATABASE_PORT := 6543; config.DATABASE_NAME := "app";
          config.DATABASE_USER := "u"; config.DATABASE_PASSWORD := "pw";
          config.REDIS_URL := None; config.REDIS_HOST := "localhost";
          config.REDIS_PORT := 6379; config.REDIS_DB := 0;
          config.ALLOWED_FILE_TYPES := config.Str "" |})
  = "postgresql://u:pw@db:6543/app".
Proof. reflexivity. Qed.

(** A local start with nothing but the secret: the server is called on port
    8000 with the log level the local set-up filled in. *)
Example local_start :
  let w := {| environ := {[ "JWT_SECRET" := "s3cret" ]};
              stdout := []; slept := []; served := [] |} in
  let run := universal_start.main (fun _ => None) w in
  run.1 = Ok tt
  /\ served run.2 = [launch 8000 "debug"]
  /\ slept run.2 = [5]
  /\ stdout run.2
     = ["🚀 Starting AfterLight Backend on LOCAL...";
        "💻 Local Development Environment";
        "🔌 Port: 8000";
        "✅ Environment setup complete";
        "🌐 Starting server on port 8000";
        "📚 API docs will be available at http://0.0.0.0:8000/docs";
        "❤️ Health check at http://0.0.0.0:8000/health";
        "⏳ Waiting 5 seconds for system to stabilize..."].
Proof. vm_compute. repeat split; reflexivity. Qed.

(** A Railway start without a database URL stops before the server. *)
Example railway_missing_database :
  let w := {| environ := {[ "RAILWAY_ENVIRONMENT" := "production";
                            "JWT_SECRET" := "s3cret" ]};
              stdout := []; slept := []; served := [] |} in
  let run := universal_start.main (fun _ => None) w in
  run.1 = Raise (SystemExit 1)
  /\ served run.2 = []
  /\ stdout run.2
     = ["🚀 Starting AfterLight Backend on RAILWAY...";
        "🚂 Railway Environment: production";
        "🔌 Port: 8000";
        "📊 Project ID: None";
        "🔧 Service ID: None";
        "❌ Missing required environment variables: DATABASE_URL";
        "Please set these in your Railway dashboard";
        "❌ Startup failed due to missing environment variables"].
Proof. vm_compute. repeat split; reflexivity. Qed.

(** The Render script with the placeholder port, and a server that fails. *)
Example render_placeholder_port :
  let w := {| environ := {[ "PORT" := "$PORT"; "RENDER" := "true";
                            "DATABASE_URL" := "postgresql://db/afterlight";
                            "JWT_SECRET" := "s3cret" ]};
              stdout := []; slept := []; served := [] |} in
  let run := render_start.main (fun _ => Some "address in use") w in
  run.1 = Raise (SystemExit 1)
  /\ served run.2 = [launch 8000 "info"]
  /\ "⚠️ Invalid PORT value: $PORT, using default 8000" ∈ stdout run.2
  /\ last (stdout run.2) = Some "❌ Failed to start server: address in use".
Proof.
  vm_compute. repeat split; try reflexivity.
  repeat first [apply list_elem_of_here | apply list_elem_of_further].
Qed.

(** * Further properties of the code *)

(** ** The environment the Normalizer leaves behind *)

Section normalizer.

Implicit Types (e : gmap string string) (w : world) (k : string).

Ltac exec :=
  cbv [mbind M_bind mret M_ret modify get raise when
       os_getenv os_getenv_or os_environ_set print sys_exit time_sleep
       with_environ];
  cbn [environ stdout slept served].

(** [NoDup] of an explicit list of names. *)
Ltac distinct :=
  cbn;
  repeat (apply NoDup_cons; split;
          [intros Hin;
           repeat (apply elem_of_cons in Hin as [Hin|Hin]; [done|]);
           by apply elem_of_nil in Hin|]);
  apply NoDup_nil_2.

(** Membership, and its negation, in an explicit list. *)
Ltac here :=
  repeat first [apply list_elem_of_here | apply list_elem_of_further].

Ltac nowhere :=
  cbn; intros Hin;
  repeat (apply elem_of_cons in Hin as [Hin|Hin]; [done|]);
  by apply elem_of_nil in Hin.

Lemma export_vars_exact vars w :
  export_vars vars w = (Ok tt, with_environ (exported vars) w).
Proof.
  revert w. induction vars as [|[key value] vars IH]; intros w.
  - by destruct w.
  - rewrite export_vars_cons. destruct value as [[|c v]|]; rewrite IH; done.
Qed.

Lemma setup_railway_exact w :
  exists out,
    universal_start.setup_railway_environment w
    = (Ok tt, {| environ := railway_env (environ w);
                 stdout := (stdout w ++ out)%list;
                 slept := slept w; served := served w |}).
Proof.
  unfold universal_start.setup_railway_environment, railway_env, railway_base.
  exec.
  destruct (String.eqb _ "production"); [|destruct (String.eqb _ "staging")].
  all: rewrite export_vars_exact; cbv [with_environ];
    cbn [environ stdout slept served].
  all: rewrite <- !app_assoc; by eexists.
Qed.

Lemma setup_render_exact w :
  exists out,
    universal_start.setup_render_environment w
    = (Ok tt, {| environ := render_env (environ w);
                 stdout := (stdout w ++ out)%list;
                 slept := slept w; served := served w |}).
Proof.
  unfold universal_start.setup_render_environment, render_env, render_base.
  exec.
  destruct (String.eqb _ "true").
  all: rewrite export_vars_exact; cbv [with_environ];
    cbn [environ stdout slept served].
  all: rewrite <- !app_assoc; by eexists.
Qed.

Lemma setup_local_exact w :
  exists out,
    universal_start.setup_local_environment w
    = (Ok tt, {| environ := local_env (environ w);
                 stdout := (stdout w ++ out)%list;
                 slept := slept w; served := served w |}).
Proof.
  unfold universal_start.setup_local_environment, local_env, fill. exec.
  destruct (Py.truthy (environ w !! "ENVIRONMENT"));
    cbn [negb environ stdout slept served].
  all: match goal with
       | |- context [Py.truthy (?e !! "DEBUG")] =>
           destruct (Py.truthy (e !! "DEBUG"))
       end; cbn [negb environ stdout slept served].
  all: match goal with
       | |- context [Py.truthy (?e !! "LOG_LEVEL")] =>
           destruct (Py.truthy (e !! "LOG_LEVEL"))
       end; cbn [negb environ stdout slept served].
  all: rewrite <- ?app_assoc; by eexists.
Qed.

Lemma setup_environment_exact w :
  exists out,
    universal_start.setup_environment w
    = (Ok tt, {| environ := normalized (environ w);
                 stdout := (stdout w ++ out)%list;
                 slept := slept w; served := served w |}).
Proof.
  rewrite setup_environment_dispatch. unfold normalized.
  set (w0 := (print _ w).2).
  destruct (Py.truthy (environ w !! "RAILWAY_ENVIRONMENT"));
    [|destruct (Py.truthy (environ w !! "RENDER"))].
  - destruct (setup_railway_exact w0) as [out ->].
    subst w0. cbn. rewrite <- app_assoc. by eexists.
  - destruct (setup_render_exact w0) as [out ->].
    subst w0. cbn. rewrite <- app_assoc. by eexists.
  - destruct (setup_local_exact w0) as [out ->].
    subst w0. cbn. rewrite <- app_assoc. by eexists.
Qed.

Lemma exported_cons key value vars e :
  exported ((key, value) :: vars) e
  = exported vars (match value with
                   | Some (String _ _ as v) => <[key:=v]> e
                   | _ => e
                   end).
Proof. done. Qed.

Lemma lookup_exported_notin vars e k :
  k ∉ vars.*1 -> exported vars e !! k = e !! k.
Proof.
  revert e. induction vars as [|[key value] vars IH]; intros e Hk; [done|].
  rewrite exported_cons. cbn in Hk. apply not_elem_of_cons in Hk as [Hne Hk].
  rewrite IH by done. destruct value as [[|c v]|]; try done.
  by rewrite lookup_insert_ne.
Qed.

Lemma lookup_exported_in vars e k v :
  NoDup vars.*1 -> (k, v) ∈ vars ->
  exported vars e !! k = if Py.truthy v then v else e !! k.
Proof.
  revert e. induction vars as [|[key value] vars IH]; intros e Hnd Hin.
  { by apply elem_of_nil in Hin. }
  cbn in Hnd. apply NoDup_cons in Hnd as [Hkey Hnd].
  rewrite exported_cons. apply elem_of_cons in Hin as [[= -> ->]|Hin].
  - rewrite lookup_exported_notin by done.
    destruct value as [[|c s]|]; try done. by rewrite lookup_insert_eq.
  - assert (key <> k).
    { intros ->. apply Hkey. apply list_elem_of_fmap. by exists (k, v). }
    rewrite (IH _ Hnd Hin). destruct (Py.truthy v); [done|].
    destruct value as [[|c s]|]; try done. by rewrite lookup_insert_ne.
Qed.

Lemma railway_base_lookup e k :
  k ∉ ["ENVIRONMENT"; "DEBUG"; "LOG_LEVEL"] -> railway_base e !! k = e !! k.
Proof.
  intros Hk. repeat (apply not_elem_of_cons in Hk as [? Hk]).
  unfold railway_base.
  destruct (String.eqb _ "production"); [|destruct (String.eqb _ "staging")];
    by rewrite !lookup_insert_ne.
Qed.

Lemma railway_env_lookup e k :
  railway_env e !! k
  = if decide (k = "PORT") then filled "8000" (e !! "PORT")
    else if decide (k = "RAILWAY_ENVIRONMENT")
         then filled "development" (e !! "RAILWAY_ENVIRONMENT")
         else railway_base e !! k.
Proof.
  unfold railway_env.
  destruct (decide (k = "PORT")) as [->|?];
    [|destruct (decide (k = "RAILWAY_ENVIRONMENT")) as [->|?];
      [|destruct (decide (k = "RAILWAY_PROJECT_ID")) as [->|?];
        [|destruct (decide (k = "RAILWAY_SERVICE_ID")) as [->|?];
          [|destruct (decide (k = "RAILWAY_DEPLOYMENT_ID")) as [->|?]]]]].
  1-5: erewrite lookup_exported_in; [|distinct|here].
  6: by rewrite lookup_exported_notin by nowhere.
  all: rewrite railway_base_lookup by nowhere.
  - by destruct (e !! "PORT") as [[|]|].
  - by destruct (e !! "RAILWAY_ENVIRONMENT") as [[|]|].
  - by destruct (e !! "RAILWAY_PROJECT_ID") as [[|]|].
  - by destruct (e !! "RAILWAY_SERVICE_ID") as [[|]|].
  - by destruct (e !! "RAILWAY_DEPLOYMENT_ID") as [[|]|].
Qed.

Lemma render_base_lookup e k :
  k ∉ ["ENVIRONMENT"; "DEBUG"; "LOG_LEVEL"] -> render_base e !! k = e !! k.
Proof.
  intros Hk. repeat (apply not_elem_of_cons in Hk as [? Hk]).
  unfold render_base. destruct (String.eqb _ "true"); [|done].
  by rewrite !lookup_insert_ne.
Qed.

Lemma render_env_lookup e k :
  render_env e !! k
  = if decide (k = "PORT") then filled "8000" (e !! "PORT")
    else if decide (k = "RENDER") then filled "false" (e !! "RENDER")
         else render_base e !! k.
Proof.
  unfold render_env.
  destruct (decide (k = "PORT")) as [->|?];
    [|destruct (decide (k = "RENDER")) as [->|?];
      [|destruct (decide (k = "RENDER_EXTERNAL_URL")) as [->|?];
        [|destruct (decide (k = "RENDER_EXTERNAL_HOSTNAME")) as [->|?]]]].
  1-4: erewrite lookup_exported_in; [|distinct|here].
  5: by rewrite lookup_exported_notin by nowhere.
  all: rewrite render_base_lookup by nowhere.
  - by destruct (e !! "PORT") as [[|]|].
  - by destruct (e !! "RENDER") as [[|]|].
  - by destruct (e !! "RENDER_EXTERNAL_URL") as [[|]|].
  - by destruct (e !! "RENDER_EXTERNAL_HOSTNAME") as [[|]|].
Qed.

Lemma fill_lookup key value e k :
  fill key value e !! k
  = if decide (k = key)
    then (if Py.truthy (e !! key) then e !! key else Some value)
    else e !! k.
Proof.
  unfold fill. destruct (decide (k = key)) as [->|?].
  - destruct (Py.truthy (e !! key)); [done|]. by rewrite lookup_insert_eq.
  - destruct (Py.truthy (e !! key)); [done|]. by rewrite lookup_insert_ne.
Qed.

Lemma filled_filled d o : filled d (filled d o) = filled d o.
Proof. by destruct o. Qed.

Lemma default_filled d o : default d (filled d o) = default d o.
Proof. by destruct o. Qed.

Lemma truthy_filled d o : Py.truthy o = true -> filled d o = o.
Proof. by destruct o. Qed.

Lemma railway_env_idempotent e : railway_env (railway_env e) = railway_env e.
Proof.
  assert (Hname : default "development" (railway_env e !! "RAILWAY_ENVIRONMENT")
                  = default "development" (e !! "RAILWAY_ENVIRONMENT")).
  { rewrite railway_env_lookup. repeat case_decide; try done.
    apply default_filled. }
  apply map_eq. intros k. rewrite (railway_env_lookup (railway_env e)).
  destruct (decide (k = "PORT")) as [->|Hp].
  { rewrite !railway_env_lookup. repeat case_decide; try done.
    by rewrite filled_filled. }
  destruct (decide (k = "RAILWAY_ENVIRONMENT")) as [->|Hr].
  { rewrite !railway_env_lookup. repeat case_decide; try done.
    by rewrite filled_filled. }
  rewrite (railway_env_lookup e). repeat case_decide; try done.
  destruct (decide (k ∈ ["ENVIRONMENT"; "DEBUG"; "LOG_LEVEL"])) as [Hin|Hout].
  - unfold railway_base. rewrite Hname.
    destruct (String.eqb _ "production"); [|destruct (String.eqb _ "staging")].
    all: repeat (apply elem_of_cons in Hin as [->|Hin]; [by simplify_map_eq|]).
    all: by apply elem_of_nil in Hin.
  - rewrite (railway_base_lookup (railway_env e)) by done.
    rewrite railway_env_lookup. by repeat case_decide.
Qed.

Lemma render_env_idempotent e : render_env (render_env e) = render_env e.
Proof.
  assert (Hflag : default "false" (render_env e !! "RENDER")
                  = default "false" (e !! "RENDER")).
  { rewrite render_env_lookup. repeat case_decide; try done.
    apply default_filled. }
  apply map_eq. intros k. rewrite (render_env_lookup (render_env e)).
  destruct (decide (k = "PORT")) as [->|Hp].
  { rewrite !render_env_lookup. repeat case_decide; try done.
    by rewrite filled_filled. }
  destruct (decide (k = "RENDER")) as [->|Hr].
  { rewrite !render_env_lookup. repeat case_decide; try done.
    by rewrite filled_filled. }
  rewrite (render_env_lookup e). repeat case_decide; try done.
  destruct (decide (k ∈ ["ENVIRONMENT"; "DEBUG"; "LOG_LEVEL"])) as [Hin|Hout].
  - unfold render_base. rewrite Hflag.
    destruct (String.eqb _ "true") eqn:E.
    + repeat (apply elem_of_cons in Hin as [->|Hin]; [by simplify_map_eq|]).
      by apply elem_of_nil in Hin.
    + rewrite render_env_lookup. repeat case_decide; try done.
      unfold render_base. by rewrite E.
  - rewrite (render_base_lookup (render_env e)) by done.
    rewrite render_env_lookup. by repeat case_decide.
Qed.

Lemma local_env_lookup e k :
  local_env e !! k
  = if decide (k = "LOG_LEVEL") then kept "DEBUG" (e !! "LOG_LEVEL")
    else if decide (k = "DEBUG") then kept "true" (e !! "DEBUG")
    else if decide (k = "ENVIRONMENT")
         then kept "development" (e !! "ENVIRONMENT")
         else e !! k.
Proof.
  unfold local_env. rewrite !fill_lookup. unfold kept.
  repeat case_decide; subst; try done.
Qed.

Lemma kept_kept d o : d <> "" -> kept d (kept d o) = kept d o.
Proof.
  intros Hd. unfold kept. destruct (Py.truthy o) eqn:E; [by rewrite E|].
  by destruct d.
Qed.

Lemma local_env_idempotent e : local_env (local_env e) = local_env e.
Proof.
  apply map_eq. intros k. rewrite (local_env_lookup (local_env e)).
  rewrite !local_env_lookup.
  repeat case_decide; try done; by rewrite kept_kept.
Qed.

(** Outside the four variables the Normalizer leaves the environment
    alone. *)
Lemma normalized_lookup_frame e k :
  k ∉ ["ENVIRONMENT"; "DEBUG"; "LOG_LEVEL"; "PORT"] ->
  normalized e !! k = e !! k.
Proof.
  intros Hk. repeat (apply not_elem_of_cons in Hk as [? Hk]).
  unfold normalized.
  destruct (Py.truthy (e !! "RAILWAY_ENVIRONMENT")) eqn:Er;
    [|destruct (Py.truthy (e !! "RENDER")) eqn:Ee].
  - rewrite railway_env_lookup. repeat case_decide; subst; try done.
    + by rewrite truthy_filled.
    + by rewrite railway_base_lookup by nowhere.
  - rewrite render_env_lookup. repeat case_decide; subst; try done.
    + by rewrite truthy_filled.
    + by rewrite render_base_lookup by nowhere.
  - rewrite local_env_lookup. by repeat case_decide.
Qed.

Lemma normalized_lookup_port e :
  normalized e !! "PORT"
  = if String.eqb (platform_of e) "local" then e !! "PORT"
    else filled "8000" (e !! "PORT").
Proof.
  unfold normalized, platform_of.
  destruct (Py.truthy (e !! "RAILWAY_ENVIRONMENT")) eqn:Er;
    [|destruct (Py.truthy (e !! "RENDER")) eqn:Ee].
  - rewrite railway_env_lookup. by repeat case_decide.
  - rewrite render_env_lookup. by repeat case_decide.
  - rewrite local_env_lookup. by repeat case_decide.
Qed.

Lemma platform_of_normalized e : platform_of (normalized e) = platform_of e.
Proof.
  unfold platform_of. by rewrite !normalized_lookup_frame by nowhere.
Qed.

Lemma normalized_idempotent e : normalized (normalized e) = normalized e.
Proof.
  unfold normalized at 1.
  rewrite !normalized_lookup_frame by nowhere. unfold normalized.
  destruct (Py.truthy (e !! "RAILWAY_ENVIRONMENT"));
    [|destruct (Py.truthy (e !! "RENDER"))].
  - apply railway_env_idempotent.
  - apply render_env_idempotent.
  - apply local_env_idempotent.
Qed.

Lemma missing_vars_normalized e required :
  Forall (fun var => var ∉ ["ENVIRONMENT"; "DEBUG"; "LOG_LEVEL"; "PORT"])
    required ->
  missing_vars (normalized e) required = missing_vars e required.
Proof.
  unfold missing_vars. induction 1 as [|var required Hvar _ IH]; [done|].
  cbn [List.filter]. by rewrite normalized_lookup_frame, IH.
Qed.

Lemma default_port_normalized e :
  default "8000" (normalized e !! "PORT") = default "8000" (e !! "PORT").
Proof.
  rewrite normalized_lookup_port. destruct (String.eqb _ _); [done|].
  apply default_filled.
Qed.

Lemma render_env_lookup_frame e k :
  k ∉ ["ENVIRONMENT"; "DEBUG"; "LOG_LEVEL"; "PORT"; "RENDER"] ->
  render_env e !! k = e !! k.
Proof.
  intros Hk. repeat (apply not_elem_of_cons in Hk as [? Hk]).
  rewrite render_env_lookup. repeat case_decide; try done.
  by rewrite render_base_lookup by nowhere.
Qed.

Lemma missing_vars_render_env e :
  missing_vars (render_env e) ["DATABASE_URL"; "JWT_SECRET"]
  = missing_vars e ["DATABASE_URL"; "JWT_SECRET"].
Proof.
  unfold missing_vars. cbn [List.filter].
  by rewrite !render_env_lookup_frame by nowhere.
Qed.

Lemma default_port_render_env e :
  default "8000" (render_env e !! "PORT") = default "8000" (e !! "PORT").
Proof.
  rewrite render_env_lookup. repeat case_decide; try done.
  apply default_filled.
Qed.

Lemma check_requirements_exact w :
  let platform := platform_of (environ w) in
  let missing :=
    missing_vars (environ w)
      (if String.eqb platform "local" then ["JWT_SECRET"]
       else ["DATABASE_URL"; "JWT_SECRET"]) in
  universal_start.check_requirements w
  = match missing with
    | [] => (Ok true, w)
    | _ :: _ =>
        (Ok false,
         {| environ := environ w;
            stdout := (stdout w
                       ++ [missing_line missing; dashboard_hint platform])%list;
            slept := slept w; served := served w |})
    end.
Proof.
  intros platform missing.
  unfold universal_start.check_requirements. cbv [mbind M_bind].
  rewrite detect_platform_run, collect_missing_run.
  subst missing platform. set (platform := platform_of (environ w)).
  destruct (missing_vars _ _) as [|m ms]; [done|].
  fold (missing_line (m :: ms)). unfold dashboard_hint. exec.
  destruct (String.eqb platform "railway");
    [|destruct (String.eqb platform "render")].
  all: cbn [environ stdout slept served]; by rewrite <- app_assoc.
Qed.

Lemma check_render_requirements_exact w :
  let missing := missing_vars (environ w) ["DATABASE_URL"; "JWT_SECRET"] in
  render_start.check_render_requirements w
  = match missing with
    | [] => (Ok true, w)
    | _ :: _ =>
        (Ok false,
         {| environ := environ w;
            stdout := (stdout w
                       ++ [missing_line missing;
                           "Please set these in your Render dashboard"])%list;
            slept := slept w; served := served w |})
    end.
Proof.
  intros missing.
  unfold render_start.check_render_requirements. cbv [mbind M_bind].
  rewrite collect_missing_run. subst missing.
  destruct (missing_vars _ _) as [|m ms]; [done|].
  fold (missing_line (m :: ms)). exec. by rewrite <- app_assoc.
Qed.

Lemma universal_main_exact server w :
  let e := normalized (environ w) in
  let platform := platform_of (environ w) in
  let missing :=
    missing_vars (environ w)
      (if String.eqb platform "local" then ["JWT_SECRET"]
       else ["DATABASE_URL"; "JWT_SECRET"]) in
  let port_str := default "8000" (environ w !! "PORT") in
  let port := universal_port port_str in
  let level := Py.lower (default "INFO" (e !! "LOG_LEVEL")) in
  let delay := if String.eqb platform "render" then 3 else 5 in
  exists out,
    universal_start.setup_environment w
    = (Ok tt, {| environ := e; stdout := (stdout w ++ out)%list;
                 slept := slept w; served := served w |})
    /\ universal_start.main server w
       = match missing with
         | _ :: _ =>
             (Raise (SystemExit 1),
              {| environ := e;
                 stdout :=
                   (stdout w ++ out
                    ++ [missing_line missing; dashboard_hint platform;
                        "❌ Startup failed due to missing environment variables"])%list;
                 slept := slept w; served := served w |})
         | [] =>
             (if server (launch port level) is Some _
              then Raise (SystemExit 1) else Ok tt,
              {| environ := e;
                 stdout :=
                   (stdout w ++ out ++ universal_warning port_str
                    ++ port_lines port
                    ++ ["⏳ Waiting " +:+ Py.str delay
                        +:+ " seconds for system to stabilize..."]
                    ++ failure_lines (server (launch port level)))%list;
                 slept := (slept w ++ [delay])%list;
                 served := (served w ++ [launch port level])%list |})
         end.
Proof.
  intros e platform missing port_str port level delay.
  destruct (setup_environment_exact w) as [out Hsetup].
  exists out. split; [done|].
  unfold universal_start.main. cbv [mbind M_bind]. rewrite Hsetup.
  rewrite check_requirements_exact. cbv zeta.
  cbn [environ stdout slept served].
  rewrite (platform_of_normalized (environ w)). fold platform.
  rewrite missing_vars_normalized
    by (destruct (String.eqb platform "local"); repeat constructor; nowhere).
  fold missing. destruct missing as [|m ms].
  - cbn [negb when]. cbv [mret M_ret].
    rewrite universal_resolve_port_run. cbv zeta.
    cbn [environ stdout slept served].
    rewrite default_port_normalized. fold port_str port.
    unfold universal_warning, port_lines, failure_lines.
    destruct (String.eqb port_str "$PORT");
      [|destruct (Py.int port_str)]; exec;
      cbn [snd environ stdout slept served].
    all: rewrite detect_platform_run; cbn [environ stdout slept served].
    all: rewrite platform_of_normalized; fold platform delay.
    all: cbv iota beta; exec.
    all: cbv [try_except uvicorn_run]; cbn [environ stdout slept served].
    all: fold e level; fold (launch port level).
    all: destruct (server (launch port level)) as [msg|];
      cbn [is_Exception exn_str]; exec.
    all: apply f_equal2; [done|]; f_equal.
    all: rewrite <- ?app_assoc; cbn [app]; by rewrite ?app_nil_r.
  - cbn [negb when]. exec. fold e. apply f_equal2; [done|]; f_equal.
    by rewrite <- !app_assoc.
Qed.

Lemma render_main_exact server w :
  let e := render_env (environ w) in
  let missing := missing_vars (environ w) ["DATABASE_URL"; "JWT_SECRET"] in
  let port_str := default "8000" (environ w !! "PORT") in
  let port := render_port port_str in
  let level := Py.lower (default "INFO" (e !! "LOG_LEVEL")) in
  exists out,
    render_start.main server w
    = match missing with
      | _ :: _ =>
          (Raise (SystemExit 1),
           {| environ := e;
              stdout :=
                (stdout w ++ out
                 ++ [missing_line missing;
                     "Please set these in your Render dashboard";
                     "❌ Startup failed due to missing environment variables"])%list;
              slept := slept w; served := served w |})
      | [] =>
          (if server (launch port level) is Some _
           then Raise (SystemExit 1) else Ok tt,
           {| environ := e;
              stdout :=
                (stdout w ++ out ++ render_warning port_str
                 ++ port_lines port
                 ++ ["⏳ Waiting 3 seconds for system to stabilize..."]
                 ++ failure_lines (server (launch port level)))%list;
              slept := (slept w ++ [3])%list;
              served := (served w ++ [launch port level])%list |})
      end.
Proof.
  intros e missing port_str port level.
  unfold render_start.main. cbv [mbind M_bind].
  match goal with
  | |- context [print ?line w] =>
      change (print line w) with (Ok tt, (print line w).2);
      set (w0 := (print line w).2)
  end.
  cbv iota beta. rewrite setup_render_same.
  destruct (setup_render_exact w0) as [out0 ->].
  exists ("🚀 Starting AfterLight Backend on Render..." :: out0).
  subst w0. cbn [print modify snd environ stdout slept served].
  rewrite check_render_requirements_exact. cbv zeta.
  cbn [environ stdout slept served].
  rewrite missing_vars_render_env. fold missing.
  destruct missing as [|m ms].
  - cbn [negb when]. cbv [mret M_ret].
    rewrite render_resolve_port_run. cbv zeta.
    cbn [environ stdout slept served].
    rewrite default_port_render_env. fold port_str port.
    unfold render_warning, port_lines, failure_lines.
    destruct (Py.int port_str); exec; cbn [snd environ stdout slept served].
    all: cbv [try_except uvicorn_run]; cbn [environ stdout slept served].
    all: fold e level; fold (launch port level).
    all: destruct (server (launch port level)) as [msg|];
      cbn [is_Exception exn_str]; exec.
    all: apply f_equal2; [done|]; f_equal.
    all: rewrite <- ?app_assoc; cbn [app]; by rewrite ?app_nil_r.
  - cbn [negb when]. exec. fold e. apply f_equal2; [done|]; f_equal.
    by rewrite <- !app_assoc.
Qed.

(** The three variables the Normalizer writes, after a Railway set-up. *)
Lemma railway_base_names e :
  let name := default "development" (e !! "RAILWAY_ENVIRONMENT") in
  (railway_base e !! "ENVIRONMENT", railway_base e !! "DEBUG",
   railway_base e !! "LOG_LEVEL")
  = if String.eqb name "production"
    then (Some "production", Some "false", Some "INFO")
    else if String.eqb name "staging"
         then (Some "staging", Some "false", Some "INFO")
         else (Some "development", Some "true", Some "DEBUG").
Proof.
  intros name. unfold railway_base. fold name.
  by destruct (String.eqb name "production"), (String.eqb name "staging");
    simplify_map_eq.
Qed.

Lemma normalized_railway e :
  Py.truthy (e !! "RAILWAY_ENVIRONMENT") = true ->
  normalized e = railway_env e.
Proof. intros H. unfold normalized. by rewrite H. Qed.

Lemma normalized_render e :
  Py.truthy (e !! "RAILWAY_ENVIRONMENT") = false ->
  Py.truthy (e !! "RENDER") = true ->
  normalized e = render_env e.
Proof. intros H1 H2. unfold normalized. by rewrite H1, H2. Qed.

Lemma normalized_local e :
  Py.truthy (e !! "RAILWAY_ENVIRONMENT") = false ->
  Py.truthy (e !! "RENDER") = false ->
  normalized e = local_env e.
Proof. intros H1 H2. unfold normalized. by rewrite H1, H2. Qed.

Lemma railway_env_names e k :
  k ∈ ["ENVIRONMENT"; "DEBUG"; "LOG_LEVEL"] ->
  railway_env e !! k = railway_base e !! k.
Proof.
  intros Hk. rewrite railway_env_lookup.
  repeat (apply elem_of_cons in Hk as [->|Hk]; [by repeat case_decide|]).
  by apply elem_of_nil in Hk.
Qed.

Lemma render_env_names e k :
  k ∈ ["ENVIRONMENT"; "DEBUG"; "LOG_LEVEL"] ->
  render_env e !! k = render_base e !! k.
Proof.
  intros Hk. rewrite render_env_lookup.
  repeat (apply elem_of_cons in Hk as [->|Hk]; [by repeat case_decide|]).
  by apply elem_of_nil in Hk.
Qed.

Lemma normalized_keeps e k :
  is_Some (e !! k) -> is_Some (normalized e !! k).
Proof.
  intros Hk.
  destruct (decide (k ∈ ["ENVIRONMENT"; "DEBUG"; "LOG_LEVEL"; "PORT"]))
    as [Hin|Hout]; [|by rewrite normalized_lookup_frame].
  apply elem_of_cons in Hin as [->|Hin].
  2: apply elem_of_cons in Hin as [->|Hin].
  3: apply elem_of_cons in Hin as [->|Hin].
  4: apply list_elem_of_singleton in Hin as ->.
  4: { rewrite normalized_lookup_port. destruct (String.eqb _ _); [done|].
       by destruct (e !! "PORT"). }
  all: unfold normalized;
    destruct (Py.truthy (e !! "RAILWAY_ENVIRONMENT"));
    [|destruct (Py.truthy (e !! "RENDER"))].
  all: first
    [ rewrite railway_env_names by (repeat constructor); unfold railway_base;
      destruct (String.eqb _ "production");
        [|destruct (String.eqb _ "staging")]; by simplify_map_eq
    | rewrite render_env_names by (repeat constructor); unfold render_base;
      destruct (String.eqb _ "true"); by simplify_map_eq
    | rewrite local_env_lookup; repeat case_decide; try done;
      unfold kept; by destruct (Py.truthy _) ].
Qed.

(** X1. The Normalizer always returns.  It takes no pause and does not call
    the server; it only adds lines to the output; it leaves every variable
    other than [ENVIRONMENT], [DEBUG], [LOG_LEVEL] and [PORT] as it was; and
    it never unsets a variable. *)
Theorem normalizer_frame w :
  exists w',
    universal_start.setup_environment w = (Ok tt, w')
    /\ slept w' = slept w /\ served w' = served w
    /\ (exists out, stdout w' = (stdout w ++ out)%list)
    /\ (forall k, k ∉ ["ENVIRONMENT"; "DEBUG"; "LOG_LEVEL"; "PORT"] ->
        environ w' !! k = environ w !! k)
    /\ (forall k, is_Some (environ w !! k) -> is_Some (environ w' !! k)).
Proof.
  destruct (setup_environment_exact w) as [out Hrun].
  eexists. split; [exact Hrun|]. cbn.
  repeat split; try done.
  - by exists out.
  - apply normalized_lookup_frame.
  - apply normalized_keeps.
Qed.

(** X2. Normalizing twice is normalizing once: a second run of the
    Normalizer leaves the environment of the first run unchanged. *)
Theorem normalizer_idempotent w :
  exists w1 w2,
    universal_start.setup_environment w = (Ok tt, w1)
    /\ universal_start.setup_environment w1 = (Ok tt, w2)
    /\ environ w2 = environ w1.
Proof.
  destruct (setup_environment_exact w) as [out1 Hrun1].
  eexists. 
  match type of Hrun1 with _ = (_, ?w1) =>
    destruct (setup_environment_exact w1) as [out2 Hrun2] end.
  eexists. split; [exact Hrun1|]. split; [exact Hrun2|].
  cbn. apply normalized_idempotent.
Qed.

(** X3. Normalization does not change the platform that detection
    reports. *)
Theorem normalizer_keeps_platform w :
  exists tag w',
    universal_start.detect_platform w = (Ok tag, w)
    /\ universal_start.setup_environment w = (Ok tt, w')
    /\ universal_start.detect_platform w' = (Ok tag, w').
Proof.
  destruct (setup_environment_exact w) as [out Hrun].
  exists (platform_of (environ w)). eexists.
  split; [apply detect_platform_run|]. split; [exact Hrun|].
  rewrite detect_platform_run. cbn. by rewrite platform_of_normalized.
Qed.

(** X4. On Railway the three variables follow [RAILWAY_ENVIRONMENT]:
    "staging" gives staging, false, INFO; any name other than "production"
    and "staging" gives development, true, DEBUG. *)
Theorem railway_environment_names w r :
  environ w !! "RAILWAY_ENVIRONMENT" = Some r -> r <> "" ->
  exists w',
    universal_start.setup_environment w = (Ok tt, w')
    /\ (r = "staging" ->
        environ w' !! "ENVIRONMENT" = Some "staging"
        /\ environ w' !! "DEBUG" = Some "false"
        /\ environ w' !! "LOG_LEVEL" = Some "INFO")
    /\ (r <> "production" -> r <> "staging" ->
        environ w' !! "ENVIRONMENT" = Some "development"
        /\ environ w' !! "DEBUG" = Some "true"
        /\ environ w' !! "LOG_LEVEL" = Some "DEBUG").
Proof.
  intros Hr Hne.
  destruct (setup_environment_exact w) as [out Hrun].
  eexists. split; [exact Hrun|]. cbn.
  rewrite normalized_railway by (rewrite Hr; by destruct r).
  rewrite !railway_env_names by (repeat constructor).
  pose proof (railway_base_names (environ w)) as Hn.
  rewrite Hr in Hn. cbn in Hn.
  split.
  - intros ->. cbn in Hn. by injection Hn as -> -> ->.
  - intros Hp Hs. apply String.eqb_neq in Hp, Hs. rewrite Hp, Hs in Hn.
    by injection Hn as -> -> ->.
Qed.

Lemma railway_environment_names_witness :
  let w :=
    world_of {[ "RAILWAY_ENVIRONMENT" := "preview"; "DEBUG" := "false" ]} in
  let r := "preview" in
  exists w',
    universal_start.setup_environment w = (Ok tt, w')
    /\ (r = "staging" ->
        environ w' !! "ENVIRONMENT" = Some "staging"
        /\ environ w' !! "DEBUG" = Some "false"
        /\ environ w' !! "LOG_LEVEL" = Some "INFO")
    /\ (r <> "production" -> r <> "staging" ->
        environ w' !! "ENVIRONMENT" = Some "development"
        /\ environ w' !! "DEBUG" = Some "true"
        /\ environ w' !! "LOG_LEVEL" = Some "DEBUG").
Proof.
  intros w r.
  apply (railway_environment_names w r); by vm_compute.
Defined.

Lemma render_base_names e :
  (render_base e !! "ENVIRONMENT", render_base e !! "DEBUG",
   render_base e !! "LOG_LEVEL")
  = if String.eqb (default "false" (e !! "RENDER")) "true"
    then (Some "production", Some "false", Some "INFO")
    else (e !! "ENVIRONMENT", e !! "DEBUG", e !! "LOG_LEVEL").
Proof.
  unfold render_base.
  by destruct (String.eqb _ "true"); simplify_map_eq.
Qed.

(** X5. On Render the value of [RENDER] decides: "true" gives production,
    false, INFO; with any other non-empty value, which still counts as the
    Render signal, the three variables are left exactly as they were. *)
Theorem render_flag_decides w flag :
  Py.truthy (environ w !! "RAILWAY_ENVIRONMENT") = false ->
  environ w !! "RENDER" = Some flag -> flag <> "" ->
  exists w',
    universal_start.setup_environment w = (Ok tt, w')
    /\ (flag = "true" ->
        environ w' !! "ENVIRONMENT" = Some "production"
        /\ environ w' !! "DEBUG" = Some "false"
        /\ environ w' !! "LOG_LEVEL" = Some "INFO")
    /\ (flag <> "true" ->
        environ w' !! "ENVIRONMENT" = environ w !! "ENVIRONMENT"
        /\ environ w' !! "DEBUG" = environ w !! "DEBUG"
        /\ environ w' !! "LOG_LEVEL" = environ w !! "LOG_LEVEL").
Proof.
  intros Hr Hf Hne.
  destruct (setup_environment_exact w) as [out Hrun].
  eexists. split; [exact Hrun|]. cbn.
  rewrite normalized_render by (rewrite ?Hf; by destruct flag).
  rewrite !render_env_names by (repeat constructor).
  pose proof (render_base_names (environ w)) as Hn.
  rewrite Hf in Hn. cbn in Hn.
  split.
  - intros ->. cbn in Hn. by injection Hn as -> -> ->.
  - intros Ht. apply String.eqb_neq in Ht. rewrite Ht in Hn.
    by injection Hn as -> -> ->.
Qed.

Lemma render_flag_decides_witness :
  let w := world_of {[ "RENDER" := "1"; "ENVIRONMENT" := "qa" ]} in
  let flag := "1" in
  exists w',
    universal_start.setup_environment w = (Ok tt, w')
    /\ (flag = "true" ->
        environ w' !! "ENVIRONMENT" = Some "production"
        /\ environ w' !! "DEBUG" = Some "false"
        /\ environ w' !! "LOG_LEVEL" = Some "INFO")
    /\ (flag <> "true" ->
        environ w' !! "ENVIRONMENT" = environ w !! "ENVIRONMENT"
        /\ environ w' !! "DEBUG" = environ w !! "DEBUG"
        /\ environ w' !! "LOG_LEVEL" = environ w !! "LOG_LEVEL").
Proof.
  intros w flag.
  apply (render_flag_decides w flag); by vm_compute.
Defined.

Lemma kept_cases d o :
  d <> "" ->
  (forall v, o = Some v -> v <> "" -> kept d o = Some v)
  /\ (o = None \/ o = Some "" -> kept d o = Some d)
  /\ Py.truthy (kept d o) = true.
Proof.
  intros Hd. unfold kept. split; [|split].
  - intros v -> Hv. by destruct v.
  - by intros [-> | ->].
  - destruct o as [[|c v]|]; by destruct d.
Qed.

(** X6. On a local start each of [ENVIRONMENT], [DEBUG], [LOG_LEVEL] keeps
    a non-empty value and gets its default ("development", "true", "DEBUG")
    when unset or empty, so all three are non-empty afterwards; no other
    variable changes, [PORT] included. *)
Theorem local_fills_gaps w :
  Py.truthy (environ w !! "RAILWAY_ENVIRONMENT") = false ->
  Py.truthy (environ w !! "RENDER") = false ->
  exists w',
    universal_start.setup_environment w = (Ok tt, w')
    /\ (forall k fallback,
          (k, fallback) ∈ [("ENVIRONMENT", "development"); ("DEBUG", "true");
                           ("LOG_LEVEL", "DEBUG")] ->
          (forall v, environ w !! k = Some v -> v <> "" ->
                     environ w' !! k = Some v)
          /\ (environ w !! k = None \/ environ w !! k = Some "" ->
              environ w' !! k = Some fallback)
          /\ Py.truthy (environ w' !! k) = true)
    /\ (forall k, k ∉ ["ENVIRONMENT"; "DEBUG"; "LOG_LEVEL"] ->
        environ w' !! k = environ w !! k).
Proof.
  intros Hr He.
  destruct (setup_environment_exact w) as [out Hrun].
  eexists. split; [exact Hrun|]. cbn.
  rewrite normalized_local by done. split.
  - intros k fallback Hin. rewrite local_env_lookup.
    repeat (apply elem_of_cons in Hin as [[= -> ->]|Hin];
            [repeat case_decide; try done; by apply kept_cases|]).
    by apply elem_of_nil in Hin.
  - intros k Hk. repeat (apply not_elem_of_cons in Hk as [? Hk]).
    rewrite local_env_lookup. by repeat case_decide.
Qed.

Lemma local_fills_gaps_witness :
  let w := world_of {[ "JWT_SECRET" := "s3cret"; "DEBUG" := "";
                        "LOG_LEVEL" := "WARNING" ]} in
  exists w',
    universal_start.setup_environment w = (Ok tt, w')
    /\ (forall k fallback,
          (k, fallback) ∈ [("ENVIRONMENT", "development"); ("DEBUG", "true");
                           ("LOG_LEVEL", "DEBUG")] ->
          (forall v, environ w !! k = Some v -> v <> "" ->
                     environ w' !! k = Some v)
          /\ (environ w !! k = None \/ environ w !! k = Some "" ->
              environ w' !! k = Some fallback)
          /\ Py.truthy (environ w' !! k) = true)
    /\ (forall k, k ∉ ["ENVIRONMENT"; "DEBUG"; "LOG_LEVEL"] ->
        environ w' !! k = environ w !! k).
Proof.
  intros w.
  apply (local_fills_gaps w); by vm_compute.
Defined.

(** X7. [PORT] is written on the hosting platforms only: there an unset
    [PORT] becomes "8000" and a set one, even an empty one, is kept; on a
    local start [PORT] is never written. *)
Theorem port_filled_on_hosts w :
  exists tag w',
    universal_start.detect_platform w = (Ok tag, w)
    /\ universal_start.setup_environment w = (Ok tt, w')
    /\ (tag = "local" -> environ w' !! "PORT" = environ w !! "PORT")
    /\ (tag <> "local" ->
        (environ w !! "PORT" = None -> environ w' !! "PORT" = Some "8000")
        /\ (forall p, environ w !! "PORT" = Some p ->
                      environ w' !! "PORT" = Some p)).
Proof.
  destruct (setup_environment_exact w) as [out Hrun].
  exists (platform_of (environ w)). eexists.
  split; [apply detect_platform_run|]. split; [exact Hrun|]. cbn.
  rewrite normalized_lookup_port. split.
  - by intros ->.
  - intros Hne. apply String.eqb_neq in Hne. rewrite Hne.
    split; [by intros ->|]. by intros p ->.
Qed.

(** X8. The set-up of the Render script leaves [RENDER] set: a value it
    finds is kept, and when there was none it writes "false".  After that,
    platform detection reports "render" for an environment it reported as
    "local" before. *)
Theorem render_setup_marks_environment w :
  exists w',
    render_start.setup_render_environment w = (Ok tt, w')
    /\ (environ w !! "RENDER" = None -> environ w' !! "RENDER" = Some "false")
    /\ (forall flag, environ w !! "RENDER" = Some flag ->
                     environ w' !! "RENDER" = Some flag)
    /\ (environ w !! "RENDER" = None ->
        Py.truthy (environ w !! "RAILWAY_ENVIRONMENT") = false ->
        universal_start.detect_platform w = (Ok "local", w)
        /\ universal_start.detect_platform w' = (Ok "render", w')).
Proof.
  rewrite setup_render_same.
  destruct (setup_render_exact w) as [out Hrun].
  eexists. split; [exact Hrun|]. cbn [environ].
  assert (Hflag : render_env (environ w) !! "RENDER"
                  = filled "false" (environ w !! "RENDER")).
  { rewrite render_env_lookup. by repeat case_decide. }
  rewrite Hflag. split; [by intros ->|]. split; [by intros flag ->|].
  intros Hnone Hr. rewrite !detect_platform_run. cbn [environ].
  unfold platform_of.
  rewrite Hflag, Hnone, Hr, render_env_lookup_frame by nowhere.
  by rewrite Hr.
Qed.

(** X9. Required-variable validation never changes the environment, takes
    no pause and does not call the server.  When nothing is missing it
    returns true and leaves the world as it was; otherwise it returns false
    after printing exactly two lines: the missing names joined by ", " and
    the hint of the platform. *)
Theorem validation_report w :
  let platform := platform_of (environ w) in
  let missing :=
    missing_vars (environ w)
      (if String.eqb platform "local" then ["JWT_SECRET"]
       else ["DATABASE_URL"; "JWT_SECRET"]) in
  exists ok w',
    universal_start.check_requirements w = (Ok ok, w')
    /\ environ w' = environ w /\ slept w' = slept w /\ served w' = served w
    /\ (missing = [] -> ok = true /\ w' = w)
    /\ (missing <> [] ->
        ok = false
        /\ stdout w'
           = (stdout w
              ++ ["❌ Missing required environment variables: "
                  +:+ Py.join ", " missing;
                  if String.eqb platform "railway"
                  then "Please set these in your Railway dashboard"
                  else if String.eqb platform "render"
                       then "Please set these in your Render dashboard"
                       else "Please set these in your .env file"])%list).
Proof.
  intros platform missing.
  pose proof (check_requirements_exact w) as Hrun. cbv zeta in Hrun.
  fold platform in Hrun. fold missing in Hrun.
  destruct missing as [|m ms]; do 2 eexists; (split; [exact Hrun|]).
  - repeat split; done.
  - repeat split; done.
Qed.

Lemma int_placeholder s n : Py.int s = Some n -> String.eqb s "$PORT" = false.
Proof.
  intros Hs. apply String.eqb_neq. intros ->. discriminate Hs.
Qed.

(** X10. When [PORT] is an integer literal that [int] accepts, with value
    [n], the three readers agree: both start scripts resolve the port to [n]
    without printing anything, and the code of [Settings.__init__] after the
    base constructor completes with [PORT] equal to [n].  None of them
    checks a range. *)
Theorem integer_port_agreement s n :
  Py.int s = Some n ->
  (forall w, environ w !! "PORT" = Some s ->
     universal_start.resolve_port w = (Ok n, w)
     /\ render_start.resolve_port w = (Ok n, w))
  /\ (forall environ base, environ !! "PORT" = Some s ->
      exists st, config.settings environ base = Ok st /\ config.PORT st = n).
Proof.
  intros Hs. split.
  - intros w Hp. rewrite universal_resolve_port_run, render_resolve_port_run.
    rewrite Hp. cbn [default from_option id].
    unfold universal_port, render_port.
    by rewrite (int_placeholder s n Hs), Hs.
  - intros environ base Hp.
    destruct (settings_fields environ base)
      as (st & Hst & _ & _ & _ & _ & _ & Hport).
    { unfold port_usable. rewrite Hp. destruct s; [done|]. rewrite Hs.
      by apply bool_decide_eq_true. }
    exists st. split; [done|]. rewrite Hport, Hp.
    destruct s; [discriminate Hs|]. by rewrite Hs.
Qed.

Lemma integer_port_agreement_witness :
  let s := "70_000 " in
  let n := 70000 in
  (forall w, environ w !! "PORT" = Some s ->
     universal_start.resolve_port w = (Ok n, w)
     /\ render_start.resolve_port w = (Ok n, w))
  /\ (forall environ base, environ !! "PORT" = Some s ->
      exists st, config.settings environ base = Ok st /\ config.PORT st = n).
Proof.
  intros s n.
  apply (integer_port_agreement s n); by vm_compute.
Defined.

(** X11. In the start scripts an unset [PORT] gives 8000 silently, while
    an empty [PORT] gives 8000 after the warning for the empty value. *)
Theorem unset_and_empty_port w :
  (environ w !! "PORT" = None ->
   universal_start.resolve_port w = (Ok 8000, w)
   /\ render_start.resolve_port w = (Ok 8000, w))
  /\ (environ w !! "PORT" = Some "" ->
      universal_start.resolve_port w
      = (Ok 8000,
         (print "⚠️ Invalid PORT value: , using default 8000" w).2)
      /\ render_start.resolve_port w
         = (Ok 8000,
            (print "⚠️ Invalid PORT value: , using default 8000" w).2)).
Proof.
  split; intros Hp;
    rewrite universal_resolve_port_run, render_resolve_port_run, Hp; done.
Qed.

(** X12. The universal script.  When a required variable is missing it
    exits with code 1, its last line being the start-up failure message,
    without pause and without calling the server.  Otherwise it pauses once,
    for 3 seconds on Render and 5 elsewhere, and calls the server once with
    the application "app.main:app", host "0.0.0.0", reload off and access
    log on; it returns when the server returns, and when the server raises
    it prints the failure with the message last and exits with code 1. *)
Theorem universal_start_sequence server w :
  let platform := platform_of (environ w) in
  let missing :=
    missing_vars (environ w)
      (if String.eqb platform "local" then ["JWT_SECRET"]
       else ["DATABASE_URL"; "JWT_SECRET"]) in
  exists r w',
    universal_start.main server w = (r, w')
    /\ (missing <> [] ->
        r = Raise (SystemExit 1)
        /\ slept w' = slept w /\ served w' = served w
        /\ last (stdout w')
           = Some "❌ Startup failed due to missing environment variables")
    /\ (missing = [] ->
        exists args,
          served w' = (served w ++ [args])%list
          /\ app args = "app.main:app" /\ host args = "0.0.0.0"
          /\ reload args = false /\ access_log args = true
          /\ slept w'
             = (slept w ++ [if String.eqb platform "render" then 3 else 5])%list
          /\ (server args = None -> r = Ok tt)
          /\ (forall msg, server args = Some msg ->
                r = Raise (SystemExit 1)
                /\ last (stdout w')
                   = Some ("❌ Failed to start server: " +:+ msg))).
Proof.
  intros platform missing.
  destruct (universal_main_exact server w) as (out & _ & Hrun).
  cbv zeta in Hrun. fold platform in Hrun. fold missing in Hrun.
  destruct missing as [|m ms]; do 2 eexists; (split; [exact Hrun|]).
  - split; [done|]. intros _. eexists. split; [reflexivity|].
    cbn [app host reload access_log launch stdout slept].
    do 5 (split; [done|]). split; [by intros ->|].
    intros msg ->. split; [done|].
    cbn [failure_lines]. by rewrite !last_app.
  - split; [|done]. intros _. cbn [stdout slept served].
    do 3 (split; [done|]). by rewrite !last_app.
Qed.

(** X13. The Render script behaves in the same way, always requiring both
    variables and always pausing 3 seconds. *)
Theorem render_start_sequence server w :
  let missing := missing_vars (environ w) ["DATABASE_URL"; "JWT_SECRET"] in
  exists r w',
    render_start.main server w = (r, w')
    /\ (missing <> [] ->
        r = Raise (SystemExit 1)
        /\ slept w' = slept w /\ served w' = served w
        /\ last (stdout w')
           = Some "❌ Startup failed due to missing environment variables")
    /\ (missing = [] ->
        exists args,
          served w' = (served w ++ [args])%list
          /\ app args = "app.main:app" /\ host args = "0.0.0.0"
          /\ reload args = false /\ access_log args = true
          /\ slept w' = (slept w ++ [3])%list
          /\ (server args = None -> r = Ok tt)
          /\ (forall msg, server args = Some msg ->
                r = Raise (SystemExit 1)
                /\ last (stdout w')
                   = Some ("❌ Failed to start server: " +:+ msg))).
Proof.
  intros missing.
  destruct (render_main_exact server w) as (out & Hrun).
  cbv zeta in Hrun. fold missing in Hrun.
  destruct missing as [|m ms]; do 2 eexists; (split; [exact Hrun|]).
  - split; [done|]. intros _. eexists. split; [reflexivity|].
    cbn [app host reload access_log launch stdout slept].
    do 5 (split; [done|]). split; [by intros ->|].
    intros msg ->. split; [done|].
    cbn [failure_lines]. by rewrite !last_app.
  - split; [|done]. intros _. cbn [stdout slept served].
    do 3 (split; [done|]). by rewrite !last_app.
Qed.

Lemma universal_port_render_port s : universal_port s = render_port s.
Proof.
  unfold universal_port, render_port.
  destruct (String.eqb s "$PORT") eqn:E; [|done].
  apply String.eqb_eq in E. by subst.
Qed.

(** X14. The log level handed to the server by the universal script.  On
    Railway it is "info" for production and staging and "debug" otherwise;
    on Render with [RENDER] equal to "true" it is "info", with another value
    it is the lower-cased [LOG_LEVEL], "info" when that is unset; on a local
    start it is the lower-cased [LOG_LEVEL] when that is non-empty and
    "debug" otherwise. *)
Theorem launch_log_level server w :
  missing_vars (environ w)
    (if String.eqb (platform_of (environ w)) "local" then ["JWT_SECRET"]
     else ["DATABASE_URL"; "JWT_SECRET"]) = [] ->
  exists r w' port level,
    universal_start.main server w = (r, w')
    /\ served w' = (served w ++ [launch port level])%list
    /\ (forall name,
          environ w !! "RAILWAY_ENVIRONMENT" = Some name -> name <> "" ->
          level = if String.eqb name "production" || String.eqb name "staging"
                  then "info" else "debug")
    /\ (Py.truthy (environ w !! "RAILWAY_ENVIRONMENT") = false ->
        environ w !! "RENDER" = Some "true" -> level = "info")
    /\ (Py.truthy (environ w !! "RAILWAY_ENVIRONMENT") = false ->
        forall flag, environ w !! "RENDER" = Some flag ->
          flag <> "" -> flag <> "true" ->
          level = Py.lower (default "INFO" (environ w !! "LOG_LEVEL")))
    /\ (Py.truthy (environ w !! "RAILWAY_ENVIRONMENT") = false ->
        Py.truthy (environ w !! "RENDER") = false ->
        (forall v, environ w !! "LOG_LEVEL" = Some v -> v <> "" ->
                   level = Py.lower v)
        /\ (environ w !! "LOG_LEVEL" = None
            \/ environ w !! "LOG_LEVEL" = Some "" -> level = "debug")).
Proof.
  intros Hnone.
  destruct (universal_main_exact server w) as (out & _ & Hrun).
  cbv zeta in Hrun. rewrite Hnone in Hrun.
  do 4 eexists. split; [exact Hrun|]. split; [reflexivity|].
  split; [|split; [|split]].
  - intros name Hr Hne.
    rewrite normalized_railway by (rewrite Hr; by destruct name).
    rewrite railway_env_names by (repeat constructor).
    pose proof (railway_base_names (environ w)) as Hn.
    rewrite Hr in Hn. cbn in Hn.
    destruct (String.eqb name "production"), (String.eqb name "staging");
      injection Hn as _ _ ->; done.
  - intros Hr Hf.
    rewrite normalized_render by (by rewrite ?Hf).
    rewrite render_env_names by (repeat constructor).
    pose proof (render_base_names (environ w)) as Hn.
    rewrite Hf in Hn. cbn in Hn. by injection Hn as _ _ ->.
  - intros Hr flag Hf Hne Ht.
    rewrite normalized_render by (rewrite ?Hf; by destruct flag).
    rewrite render_env_names by (repeat constructor).
    pose proof (render_base_names (environ w)) as Hn.
    rewrite Hf in Hn. cbn in Hn. apply String.eqb_neq in Ht.
    rewrite Ht in Hn. by injection Hn as _ _ ->.
  - intros Hr He. rewrite normalized_local by done.
    rewrite local_env_lookup. repeat case_decide; try done.
    destruct (kept_cases "DEBUG" (environ w !! "LOG_LEVEL")) as (Hv & Hd & _);
      [done|].
    split.
    + intros v Hl Hne. by rewrite (Hv v Hl Hne).
    + intros Hl. by rewrite (Hd Hl).
Qed.

Lemma launch_log_level_witness :
  let server := fun _ : uvicorn_args => @None string in
  let w := world_of {[ "JWT_SECRET" := "s3cret"; "LOG_LEVEL" := "Warning" ]} in
  exists r w' port level,
    universal_start.main server w = (r, w')
    /\ served w' = (served w ++ [launch port level])%list
    /\ (forall name,
          environ w !! "RAILWAY_ENVIRONMENT" = Some name -> name <> "" ->
          level = if String.eqb name "production" || String.eqb name "staging"
                  then "info" else "debug")
    /\ (Py.truthy (environ w !! "RAILWAY_ENVIRONMENT") = false ->
        environ w !! "RENDER" = Some "true" -> level = "info")
    /\ (Py.truthy (environ w !! "RAILWAY_ENVIRONMENT") = false ->
        forall flag, environ w !! "RENDER" = Some flag ->
          flag <> "" -> flag <> "true" ->
          level = Py.lower (default "INFO" (environ w !! "LOG_LEVEL")))
    /\ (Py.truthy (environ w !! "RAILWAY_ENVIRONMENT") = false ->
        Py.truthy (environ w !! "RENDER") = false ->
        (forall v, environ w !! "LOG_LEVEL" = Some v -> v <> "" ->
                   level = Py.lower v)
        /\ (environ w !! "LOG_LEVEL" = None
            \/ environ w !! "LOG_LEVEL" = Some "" -> level = "debug")).
Proof.
  intros server w.
  apply (launch_log_level server w); by vm_compute.
Defined.

(** X15. On the Render platform the two scripts agree: they end with the
    same result, the same environment, the same pause and the same server
    call. *)
Theorem scripts_agree_on_render server w :
  Py.truthy (environ w !! "RAILWAY_ENVIRONMENT") = false ->
  Py.truthy (environ w !! "RENDER") = true ->
  (universal_start.main server w).1 = (render_start.main server w).1
  /\ environ (universal_start.main server w).2
     = environ (render_start.main server w).2
  /\ slept (universal_start.main server w).2
     = slept (render_start.main server w).2
  /\ served (universal_start.main server w).2
     = served (render_start.main server w).2.
Proof.
  intros Hr He.
  destruct (universal_main_exact server w) as (outu & _ & Hu).
  destruct (render_main_exact server w) as (outr & Hrr).
  cbv zeta in Hu, Hrr. rewrite Hu, Hrr.
  assert (Hp : platform_of (environ w) = "render").
  { unfold platform_of. by rewrite Hr, He. }
  rewrite Hp, normalized_render, universal_port_render_port by done.
  change (String.eqb "render" "local") with false.
  change (String.eqb "render" "render") with true. cbv iota.
  clear Hu Hrr.
  destruct (missing_vars (environ w) ["DATABASE_URL"; "JWT_SECRET"]).
  all: repeat split; reflexivity.
Qed.

Lemma scripts_agree_on_render_witness :
  let server := fun _ : uvicorn_args => Some "address in use" in
  let w := world_of {[ "RENDER" := "true"; "JWT_SECRET" := "s3cret";
                        "DATABASE_URL" := "postgresql://db/afterlight";
                        "PORT" := "$PORT" ]} in
  (universal_start.main server w).1 = (render_start.main server w).1
  /\ environ (universal_start.main server w).2
     = environ (render_start.main server w).2
  /\ slept (universal_start.main server w).2
     = slept (render_start.main server w).2
  /\ served (universal_start.main server w).2
     = served (render_start.main server w).2.
Proof.
  intros server w.
  apply (scripts_agree_on_render server w); by vm_compute.
Defined.

End normalizer.

(** ** More on [Settings] *)

Section settings_more.

Import config.

(** Reduce field projections and attribute assignments. *)
Ltac fields :=
  cbn [ENVIRONMENT DEBUG PORT ALLOWED_ORIGINS ALLOWED_HOSTS DATABASE_URL
       DATABASE_HOST DATABASE_PORT DATABASE_NAME DATABASE_USER
       DATABASE_PASSWORD REDIS_URL REDIS_HOST REDIS_PORT REDIS_DB
       ALLOWED_FILE_TYPES set_ENVIRONMENT set_DEBUG set_PORT
       set_DATABASE_URL set_REDIS_URL set_ALLOWED_ORIGINS
       default from_option id].

Lemma port_usable_false environ :
  port_usable environ = false
  <-> exists p, environ !! "PORT" = Some p /\ p <> "" /\ Py.int p = None.
Proof.
  unfold port_usable. split.
  - destruct (environ !! "PORT") as [[|c p]|]; try done.
    intros H. apply bool_decide_eq_false in H.
    exists (String c p). repeat split; try done.
    destruct (Py.int (String c p)); [|done]. by destruct H.
  - intros (p & -> & Hne & Hint). destruct p as [|c p]; [done|].
    rewrite Hint. apply bool_decide_eq_false. by intros [n Hn].
Qed.

(** X16. Importing the settings module fails in two ways only.  Either
    the base constructor raises, and the import raises the same exception;
    or the base constructor returns and the port step raises [ValueError],
    which happens exactly when [PORT] is set, not empty and not an integer
    literal that [int] accepts.  In every other case a [settings] object is
    built: no other line of [__init__] or of the overrides can fail. *)
Theorem settings_fails_on_port_only (super : base_constructor) environ :
  (forall e,
     imported super environ = Raise e
     <-> super environ = Raise e
         \/ ((exists base, super environ = Ok base)
             /\ e = ValueError
             /\ exists p,
                 environ !! "PORT" = Some p /\ p <> "" /\ Py.int p = None))
  /\ ((exists s, imported super environ = Ok s)
      <-> (exists base, super environ = Ok base)
          /\ port_usable environ = true).
Proof.
  unfold imported.
  destruct (super environ) as [base|e0] eqn:Hsuper.
  - destruct (port_usable environ) eqn:Hp.
    + destruct (settings_fields environ base Hp) as (s & Hs & _).
      rewrite Hs. split.
      * intros e. split; [done|]. intros [?|(_ & _ & Hbad)]; [done|].
        apply port_usable_false in Hbad. congruence.
      * split; [by eauto|]. by exists s.
    + rewrite (settings_raises environ base Hp). split.
      * intros e. split.
        -- intros [= <-]. right. split; [by eauto|]. split; [done|].
           by apply port_usable_false.
        -- intros [?|(_ & -> & _)]; done.
      * split; [by intros [s ?]|by intros [_ ?]].
  - split.
    + intros e. split; [by left|].
      intros [?|([base ?] & _)]; done.
    + split; [by intros [s ?]|by intros [[base ?] _]].
Qed.

(** X17. When no cache URL is supplied (the field is unset or empty),
    [REDIS_URL] is built as redis://host:port/db from the three fields; a
    supplied URL is kept. *)
Theorem redis_url_synthesis environ base :
  port_usable environ = true ->
  exists s,
    settings environ base = Ok s
    /\ (forall url, REDIS_URL base = Some url -> url <> "" ->
        REDIS_URL s = Some url)
    /\ (REDIS_URL base = None \/ REDIS_URL base = Some "" ->
        REDIS_URL s
        = Some ("redis://" +:+ REDIS_HOST base
                +:+ ":" +:+ Py.str (REDIS_PORT base)
                +:+ "/" +:+ Py.str (REDIS_DB base))).
Proof.
  intros Hp.
  destruct (settings_fields environ base Hp)
    as (s & Hs & _ & _ & _ & Hredis & _).
  exists s. split; [done|]. rewrite Hredis. split.
  - intros url -> Hne. by destruct url.
  - by intros [-> | ->].
Qed.

Lemma redis_url_synthesis_witness :
  let environ : gmap string string := ∅ in
  let base := set_REDIS_URL (Some "") defaults in
  exists s,
    settings environ base = Ok s
    /\ (forall url, REDIS_URL base = Some url -> url <> "" ->
        REDIS_URL s = Some url)
    /\ (REDIS_URL base = None \/ REDIS_URL base = Some "" ->
        REDIS_URL s
        = Some ("redis://" +:+ REDIS_HOST base
                +:+ ":" +:+ Py.str (REDIS_PORT base)
                +:+ "/" +:+ Py.str (REDIS_DB base))).
Proof.
  intros environ base.
  apply (redis_url_synthesis environ base); by vm_compute.
Defined.

(** X18. A [settings] object always has a non-empty [DATABASE_URL] and a
    non-empty [REDIS_URL]. *)
Theorem urls_present_after_construction environ base s :
  settings environ base = Ok s ->
  Py.truthy (DATABASE_URL s) = true /\ Py.truthy (REDIS_URL s) = true.
Proof.
  intros Hs.
  destruct (port_usable environ) eqn:Hp.
  2: { by rewrite (settings_raises environ base Hp) in Hs. }
  destruct (settings_fields environ base Hp)
    as (s' & Hs' & _ & _ & Hdb & Hredis & _).
  rewrite Hs in Hs'. injection Hs' as <-.
  rewrite Hdb, Hredis. split.
  - destruct (Py.truthy (DATABASE_URL base)) eqn:E; [done|].
    by destruct (Py.nonempty (DATABASE_PASSWORD base)).
  - by destruct (Py.truthy (REDIS_URL base)) eqn:E.
Qed.

Lemma urls_present_after_construction_witness :
  let environ : gmap string string := ∅ in
  let base := defaults in
  let s := resolved environ base 8000 in
  Py.truthy (DATABASE_URL s) = true /\ Py.truthy (REDIS_URL s) = true.
Proof.
  intros environ base s.
  apply (urls_present_after_construction environ base s); by vm_compute.
Defined.

(** X19. Beyond what the base constructor has put into the fields, the
    body of [__init__] and the overrides that follow read two variables only,
    [RAILWAY_ENVIRONMENT] and [PORT]: for the same base object, two
    environments that agree on these two variables give the same outcome. *)
Theorem settings_reads_two_variables (e1 e2 : gmap string string) base :
  e1 !! "RAILWAY_ENVIRONMENT" = e2 !! "RAILWAY_ENVIRONMENT" ->
  e1 !! "PORT" = e2 !! "PORT" ->
  settings e1 base = settings e2 base.
Proof.
  intros Hr Hp. unfold settings, module_body, Settings__init__.
  by rewrite Hr, Hp.
Qed.

Lemma settings_reads_two_variables_witness :
  let e1 : gmap string string :=
    {[ "PORT" := "8080"; "ENVIRONMENT" := "production" ]} in
  let e2 : gmap string string :=
    {[ "PORT" := "8080"; "DEBUG" := "true" ]} in
  let base := defaults in
  settings e1 base = settings e2 base.
Proof.
  intros e1 e2 base.
  apply (settings_reads_two_variables e1 e2 base); by vm_compute.
Defined.

Lemma settings_explicit environ base :
  port_usable environ = true ->
  settings environ base
  = Ok (resolved environ base (resolved_port environ base)).
Proof.
  unfold port_usable, resolved_port, resolved, resolved_environment.
  intros Hp.
  unfold settings, module_body, Settings__init__, when, int_of.
  cbv [mbind M_bind mret M_ret modify get raise].
  destruct base
    as [env dbg prt orig hosts dburl dh dp dn du pw rurl rh rp rd ft].
  fields.
  destruct (environ !! "RAILWAY_ENVIRONMENT") as [[|? ?]|];
    destruct (environ !! "PORT") as [[|c p]|]; cbn [Py.truthy];
    try (apply bool_decide_eq_true in Hp as [n Hn]; rewrite Hn).
  all: fields.
  all: destruct (Py.truthy dburl); cbn [negb];
    [|destruct (Py.nonempty pw)]; fields.
  all: destruct (Py.truthy rurl); cbn [negb]; fields.
  all: match goal with
       | |- context [String.eqb ?a "production"] =>
           destruct (String.eqb a "production") eqn:E1;
           [|destruct (String.eqb a "staging")]
       end.
  all: try reflexivity.
  all: apply String.eqb_eq in E1; rewrite E1; reflexivity.
Qed.

Lemma settings_ok_explicit environ base s :
  settings environ base = Ok s ->
  port_usable environ = true
  /\ s = resolved environ base (resolved_port environ base).
Proof.
  intros Hs. destruct (port_usable environ) eqn:Hp.
  - rewrite settings_explicit in Hs by done. by injection Hs as <-.
  - by rewrite settings_raises in Hs.
Qed.

(** X20. Building [settings] leaves the trusted hosts, the allowed file
    types and the discrete database and cache fields as supplied; the hosts
    and file-types accessors return what they return on the supplied
    values. *)
Theorem settings_keeps_other_fields environ base s :
  settings environ base = Ok s ->
  ALLOWED_HOSTS s = ALLOWED_HOSTS base
  /\ ALLOWED_FILE_TYPES s = ALLOWED_FILE_TYPES base
  /\ DATABASE_HOST s = DATABASE_HOST base
  /\ DATABASE_PORT s = DATABASE_PORT base
  /\ DATABASE_NAME s = DATABASE_NAME base
  /\ DATABASE_USER s = DATABASE_USER base
  /\ DATABASE_PASSWORD s = DATABASE_PASSWORD base
  /\ REDIS_HOST s = REDIS_HOST base
  /\ REDIS_PORT s = REDIS_PORT base
  /\ REDIS_DB s = REDIS_DB base
  /\ allowed_hosts_list s = allowed_hosts_list base
  /\ allowed_file_types_list s = allowed_file_types_list base.
Proof.
  intros Hs. apply settings_ok_explicit in Hs as [_ ->].
  repeat split.
Qed.

Lemma settings_keeps_other_fields_witness :
  let environ : gmap string string :=
    {[ "RAILWAY_ENVIRONMENT" := "production" ]} in
  let base := defaults in
  let s := resolved environ base 8000 in
  ALLOWED_HOSTS s = ALLOWED_HOSTS base
  /\ ALLOWED_FILE_TYPES s = ALLOWED_FILE_TYPES base
  /\ DATABASE_HOST s = DATABASE_HOST base
  /\ DATABASE_PORT s = DATABASE_PORT base
  /\ DATABASE_NAME s = DATABASE_NAME base
  /\ DATABASE_USER s = DATABASE_USER base
  /\ DATABASE_PASSWORD s = DATABASE_PASSWORD base
  /\ REDIS_HOST s = REDIS_HOST base
  /\ REDIS_PORT s = REDIS_PORT base
  /\ REDIS_DB s = REDIS_DB base
  /\ allowed_hosts_list s = allowed_hosts_list base
  /\ allowed_file_types_list s = allowed_file_types_list base.
Proof.
  intros environ base s.
  apply (settings_keeps_other_fields environ base s); by vm_compute.
Defined.

Lemma resolved_environment_resolved environ base port :
  resolved_environment environ (resolved environ base port)
  = resolved_environment environ base.
Proof.
  unfold resolved. cbn [ENVIRONMENT]. unfold resolved_environment.
  by destruct (environ !! "RAILWAY_ENVIRONMENT") as [[|c r]|].
Qed.

(** X21. A [settings] object is a fixed point of the derivation: building
    [settings] again from it, in the same environment, gives it back. *)
Theorem settings_fixed_point environ base s :
  settings environ base = Ok s -> settings environ s = Ok s.
Proof.
  intros Hs. apply settings_ok_explicit in Hs as [Hp ->].
  rewrite settings_explicit by done. f_equal.
  set (port := resolved_port environ base).
  assert (Hport : resolved_port environ (resolved environ base port) = port).
  { subst port. unfold resolved_port, port_usable in *. cbn [PORT resolved].
    destruct (environ !! "PORT") as [[|c p]|]; try done.
    apply bool_decide_eq_true in Hp as [n Hn]. by rewrite Hn. }
  rewrite Hport. unfold resolved at 1.
  rewrite resolved_environment_resolved.
  unfold resolved.
  cbn [ENVIRONMENT DEBUG PORT ALLOWED_ORIGINS ALLOWED_HOSTS DATABASE_URL
       DATABASE_HOST DATABASE_PORT DATABASE_NAME DATABASE_USER
       DATABASE_PASSWORD REDIS_URL REDIS_HOST REDIS_PORT REDIS_DB
       ALLOWED_FILE_TYPES].
  f_equal.
  - by destruct (String.eqb (resolved_environment environ base) "production"),
      (String.eqb (resolved_environment environ base) "staging").
  - destruct (Py.truthy (DATABASE_URL base)) eqn:E; [by rewrite E|].
    by destruct (Py.nonempty (DATABASE_PASSWORD base)).
  - destruct (Py.truthy (REDIS_URL base)) eqn:E; [by rewrite E|done].
Qed.

Lemma settings_fixed_point_witness :
  let environ : gmap string string :=
    {[ "RAILWAY_ENVIRONMENT" := "staging"; "PORT" := "9000" ]} in
  let base := defaults in
  let s := resolved environ base 9000 in
  settings environ s = Ok s.
Proof.
  intros environ base s.
  apply (settings_fixed_point environ base s); by vm_compute.
Defined.

Lemma split_comma_app c s1 s2 :
  Py.split c (s1 +:+ String c s2) = (Py.split c s1 ++ Py.split c s2)%list.
Proof.
  induction s1 as [|a s1 IH]; simpl.
  - by rewrite Ascii.eqb_refl.
  - destruct (Ascii.eqb a c); [by rewrite IH|].
    rewrite IH. pose proof (split_not_nil c s1) as Hne.
    by destruct (Py.split c s1).
Qed.

(** X22. The list accessors distribute over a comma: the list derived
    from [s1,s2] is the list derived from [s1] followed by the one derived
    from [s2]. *)
Theorem as_list_comma_concat s1 s2 :
  as_list (Str (s1 +:+ "," +:+ s2))
  = (as_list (Str s1) ++ as_list (Str s2))%list.
Proof.
  unfold as_list.
  change (s1 +:+ "," +:+ s2) with (s1 +:+ String "," s2).
  by rewrite split_comma_app, List.filter_app, fmap_app.
Qed.

End settings_more.

(** ** The Normalizer followed by [Settings] *)

Section components.

Import config.

Lemma port_usable_normalized (e : gmap string string) :
  port_usable e = true -> port_usable (normalized e) = true.
Proof.
  unfold port_usable. rewrite normalized_lookup_port.
  destruct (String.eqb _ _); [done|]. by destruct (e !! "PORT").
Qed.

(** X23. On Railway, when [settings] is built in the environment the
    Normalizer leaves behind, its [ENVIRONMENT] is the Railway name itself
    and its [DEBUG] is true for "development" only.  For a name other than
    "production" and "staging" the Normalizer has written "development" and
    "true" to the environment variables of the same names, so for a name
    other than these three the object and the variables disagree. *)
Theorem railway_name_reaches_settings w base r :
  environ w !! "RAILWAY_ENVIRONMENT" = Some r -> r <> "" ->
  port_usable (environ w) = true ->
  exists w' s,
    universal_start.setup_environment w = (Ok tt, w')
    /\ settings (environ w') base = Ok s
    /\ ENVIRONMENT s = r
    /\ (DEBUG s = true <-> r = "development")
    /\ (r <> "production" -> r <> "staging" ->
        environ w' !! "ENVIRONMENT" = Some "development"
        /\ environ w' !! "DEBUG" = Some "true").
Proof.
  intros Hr Hne Hp.
  destruct (setup_environment_exact w) as [out Hrun].
  destruct (settings_fields (normalized (environ w)) base)
    as (s & Hs & Henv & Hdbg & _); [by apply port_usable_normalized|].
  assert (Hname : ENVIRONMENT s = r).
  { rewrite Henv. unfold resolved_environment.
    rewrite normalized_lookup_frame, Hr; [by destruct r|].
    intros Hin.
    repeat (apply elem_of_cons in Hin as [Hin|Hin]; [done|]).
    by apply elem_of_nil in Hin. }
  eexists. exists s. split; [exact Hrun|]. cbn [environ].
  split; [done|]. split; [done|]. split.
  - rewrite Hdbg, Hname. apply String.eqb_eq.
  - intros Hprod Hstag.
    rewrite normalized_railway by (rewrite Hr; by destruct r).
    rewrite !railway_env_names by (repeat constructor).
    pose proof (railway_base_names (environ w)) as Hn.
    rewrite Hr in Hn. cbn in Hn.
    apply String.eqb_neq in Hprod, Hstag. rewrite Hprod, Hstag in Hn.
    by injection Hn as -> -> _.
Qed.

Lemma railway_name_reaches_settings_witness :
  let w := world_of {[ "RAILWAY_ENVIRONMENT" := "preview" ]} in
  let base := defaults in
  let r := "preview" in
  exists w' s,
    universal_start.setup_environment w = (Ok tt, w')
    /\ settings (environ w') base = Ok s
    /\ ENVIRONMENT s = r
    /\ (DEBUG s = true <-> r = "development")
    /\ (r <> "production" -> r <> "staging" ->
        environ w' !! "ENVIRONMENT" = Some "development"
        /\ environ w' !! "DEBUG" = Some "true").
Proof.
  intros w base r.
  apply (railway_name_reaches_settings w base r); by vm_compute.
Defined.

End components.

(** * Empty values and absent values *)

Section presence.

Import config.

Implicit Types (e environ : gmap string string) (w : world).

Lemma insert_empty_same_truthy key e :
  same_truthy (<[key:=""]> e) (delete key e).
Proof.
  intros k. destruct (decide (key = k)) as [->|Hne].
  - right. by rewrite lookup_insert_eq, lookup_delete_eq.
  - left. by rewrite lookup_insert_ne, lookup_delete_ne.
Qed.

Lemma same_truthy_truthy e1 e2 k :
  same_truthy e1 e2 -> Py.truthy (e1 !! k) = Py.truthy (e2 !! k).
Proof. intros H. destruct (H k) as [->|[-> ->]]; done. Qed.

Lemma platform_of_same_truthy e1 e2 :
  same_truthy e1 e2 -> platform_of e1 = platform_of e2.
Proof.
  intros H. unfold platform_of.
  by rewrite !(same_truthy_truthy e1 e2 _ H).
Qed.

Lemma missing_vars_same_truthy e1 e2 required :
  same_truthy e1 e2 -> missing_vars e1 required = missing_vars e2 required.
Proof.
  intros H. unfold missing_vars.
  induction required as [|x required IH]; [done|].
  cbn [List.filter]. by rewrite (same_truthy_truthy e1 e2 _ H), IH.
Qed.

(** Validation gives the same verdict and prints the same lines. *)
Lemma check_requirements_same_truthy w1 w2 :
  same_truthy (environ w1) (environ w2) -> stdout w1 = stdout w2 ->
  (universal_start.check_requirements w1).1
  = (universal_start.check_requirements w2).1
  /\ stdout (universal_start.check_requirements w1).2
     = stdout (universal_start.check_requirements w2).2.
Proof.
  intros H Hout. unfold universal_start.check_requirements.
  cbv [mbind M_bind]. rewrite !detect_platform_run, !collect_missing_run.
  rewrite (platform_of_same_truthy _ _ H).
  rewrite (missing_vars_same_truthy _ _ _ H).
  destruct (missing_vars _ _) as [|m ms]; [done|].
  destruct (String.eqb _ "railway"); [|destruct (String.eqb _ "render")].
  all: cbv [mbind M_bind mret M_ret print modify]; cbn; by rewrite Hout.
Qed.

Lemma check_render_requirements_same_truthy w1 w2 :
  same_truthy (environ w1) (environ w2) -> stdout w1 = stdout w2 ->
  (render_start.check_render_requirements w1).1
  = (render_start.check_render_requirements w2).1
  /\ stdout (render_start.check_render_requirements w1).2
     = stdout (render_start.check_render_requirements w2).2.
Proof.
  intros H Hout. unfold render_start.check_render_requirements.
  cbv [mbind M_bind]. rewrite !collect_missing_run.
  rewrite (missing_vars_same_truthy _ _ _ H).
  destruct (missing_vars _ _) as [|m ms]; [done|].
  cbv [mbind M_bind mret M_ret print modify]; cbn; by rewrite Hout.
Qed.

(** [Settings.__init__] reads the environment through truthiness tests, and
    reads a value only after the test succeeded. *)
Lemma init_same_truthy e1 e2 base :
  same_truthy e1 e2 -> Settings__init__ e1 base = Settings__init__ e2 base.
Proof.
  intros H. unfold Settings__init__.
  destruct (H "RAILWAY_ENVIRONMENT") as [->|[-> ->]];
    destruct (H "PORT") as [->|[-> ->]]; done.
Qed.

Lemma settings_same_truthy e1 e2 base :
  same_truthy e1 e2 -> settings e1 base = settings e2 base.
Proof.
  intros H. unfold settings, module_body. cbv [mbind M_bind].
  by rewrite (init_same_truthy e1 e2 base H).
Qed.

(** An empty URL field is replaced like an unset one. *)
Lemma settings_empty_urls environ base :
  settings environ (set_DATABASE_URL (Some "") base)
  = settings environ (set_DATABASE_URL None base)
  /\ settings environ (set_REDIS_URL (Some "") base)
     = settings environ (set_REDIS_URL None base).
Proof.
  unfold settings, module_body, Settings__init__, when, int_of.
  cbv [mbind M_bind mret M_ret modify get raise].
  destruct base
    as [env dbg prt orig hosts [[|? ?]|] dh dp dn du [|? ?] [[|? ?]|]
          rh rp rd ft].
  all: destruct (environ !! "RAILWAY_ENVIRONMENT") as [[|? ?]|];
    destruct (environ !! "PORT") as [[|c p]|]; cbn [Py.truthy];
    try destruct (Py.int (String c p)).
  all: split; reflexivity.
Qed.

(** C10. Every presence test treats a variable or field set to the empty
    string like an absent one.
    - Setting a variable to [""] instead of removing it changes neither the
      detected platform nor the verdict and the printed lines of
      required-variable validation, in either script.
    - An empty [RAILWAY_ENVIRONMENT] or [RENDER] is not a platform signal.
    - A required variable set to [""] is reported: validation returns false
      and prints the line of missing names, with that name in it.
    - The code of [Settings.__init__] after the base constructor makes no
      difference between a variable set to [""] and a removed one, and none
      between an empty and an unset [DATABASE_URL] or [REDIS_URL] field: an
      empty one is synthesized from the discrete fields.
    - With [PORT] set to [""] the port step is skipped: the import raises
      what the base constructor raises, if it raises, and otherwise
      completes with the port the base constructor has set. *)
Theorem empty_is_absent key w (env : gmap string string) base
    (super : base_constructor) :
  let w_empty := with_environ (insert key "") w in
  let w_absent := with_environ (delete key) w in
  let required :=
    if String.eqb (platform_of (environ w_empty)) "local" then ["JWT_SECRET"]
    else ["DATABASE_URL"; "JWT_SECRET"] in
  let both := ["DATABASE_URL"; "JWT_SECRET"] in
  let missing := missing_vars (environ w_empty) required in
  let missing_both := missing_vars (environ w_empty) both in
  let port_empty := <["PORT":=""]> env in
  (universal_start.detect_platform w_empty).1
  = (universal_start.detect_platform w_absent).1
  /\ ((universal_start.check_requirements w_empty).1
      = (universal_start.check_requirements w_absent).1
      /\ stdout (universal_start.check_requirements w_empty).2
         = stdout (universal_start.check_requirements w_absent).2)
  /\ ((render_start.check_render_requirements w_empty).1
      = (render_start.check_render_requirements w_absent).1
      /\ stdout (render_start.check_render_requirements w_empty).2
         = stdout (render_start.check_render_requirements w_absent).2)
  /\ (universal_start.detect_platform
        (with_environ (insert "RAILWAY_ENVIRONMENT" "") w_absent)).1
     = Ok (if Py.truthy (delete key (environ w) !! "RENDER") then "render"
           else "local")
  /\ (universal_start.detect_platform
        (with_environ (insert "RENDER" "")
           (with_environ (insert "RAILWAY_ENVIRONMENT" "") w))).1
     = Ok "local"
  /\ (key ∈ required ->
      key ∈ missing
      /\ universal_start.check_requirements w_empty
         = (Ok false,
            {| environ := environ w_empty;
               stdout :=
                 (stdout w
                  ++ ["❌ Missing required environment variables: "
                      +:+ Py.join ", " missing;
                      dashboard_hint (platform_of (environ w_empty))])%list;
               slept := slept w; served := served w |}))
  /\ (key ∈ both ->
      key ∈ missing_both
      /\ render_start.check_render_requirements w_empty
         = (Ok false,
            {| environ := environ w_empty;
               stdout :=
                 (stdout w
                  ++ ["❌ Missing required environment variables: "
                      +:+ Py.join ", " missing_both;
                      "Please set these in your Render dashboard"])%list;
               slept := slept w; served := served w |}))
  /\ Settings__init__ (<[key:=""]> env) base
     = Settings__init__ (delete key env) base
  /\ settings (<[key:=""]> env) base = settings (delete key env) base
  /\ settings env (set_DATABASE_URL (Some "") base)
     = settings env (set_DATABASE_URL None base)
  /\ settings env (set_REDIS_URL (Some "") base)
     = settings env (set_REDIS_URL None base)
  /\ (super env = Ok base -> port_usable env = true ->
      exists s,
        imported super env = Ok s
        /\ (DATABASE_URL base = Some "" ->
            DATABASE_URL s
            = Some (if Py.nonempty (DATABASE_PASSWORD base)
                    then database_url_with_password base
                    else database_url_without_password base))
        /\ (REDIS_URL base = Some "" -> REDIS_URL s = Some (redis_url base)))
  /\ (forall err, super port_empty = Raise err ->
                  imported super port_empty = Raise err)
  /\ (super port_empty = Ok base ->
      exists s,
        imported super port_empty = Ok s
        /\ PORT s = PORT base
        /\ settings (delete "PORT" env) base = Ok s).
Proof.
  intros w_empty w_absent required both missing missing_both port_empty.
  pose proof (insert_empty_same_truthy key (environ w)) as Hsame.
  assert (Hmissing : forall names,
             key ∈ names -> key ∈ missing_vars (environ w_empty) names).
  { intros names Hin. unfold missing_vars.
    rewrite list_elem_of_In, filter_In, <- list_elem_of_In. cbn.
    by rewrite lookup_insert_eq. }
  split; [|split; [|split; [|split; [|split; [|split; [|split]]]]]].
  - rewrite !detect_platform_run. cbn.
    by rewrite (platform_of_same_truthy _ _ Hsame).
  - by apply check_requirements_same_truthy.
  - by apply check_render_requirements_same_truthy.
  - rewrite detect_platform_run. cbn. unfold platform_of.
    rewrite lookup_insert_eq. cbn [Py.truthy].
    by rewrite lookup_insert_ne.
  - rewrite detect_platform_run. cbn. unfold platform_of.
    rewrite lookup_insert_ne, !lookup_insert_eq by done. done.
  - intros Hin. split; [by apply Hmissing|].
    pose proof (check_requirements_exact w_empty) as Hrun.
    cbv zeta in Hrun. fold required in Hrun. fold missing in Hrun.
    pose proof (Hmissing required Hin) as Hk. fold missing in Hk.
    destruct missing as [|m ms]; [by apply elem_of_nil in Hk|].
    exact Hrun.
  - intros Hin. split; [by apply Hmissing|].
    pose proof (check_render_requirements_exact w_empty) as Hrun.
    cbv zeta in Hrun. fold both in Hrun. fold missing_both in Hrun.
    pose proof (Hmissing both Hin) as Hk. fold missing_both in Hk.
    destruct missing_both as [|m ms]; [by apply elem_of_nil in Hk|].
    exact Hrun.
  - split; [apply init_same_truthy, insert_empty_same_truthy|].
    split; [apply settings_same_truthy, insert_empty_same_truthy|].
    split; [apply settings_empty_urls|]. split; [apply settings_empty_urls|].
    split; [|split].
    + intros Hsuper Hp.
      destruct (settings_fields env base Hp)
        as (s & Hs & _ & _ & Hdb & Hredis & _).
      exists s. unfold imported. rewrite Hsuper. split; [done|]. split.
      * intros Hu. by rewrite Hdb, Hu; destruct (Py.nonempty _).
      * intros Hu. by rewrite Hredis, Hu.
    + intros err He. unfold imported. by rewrite He.
    + intros Hsuper.
      destruct (settings_fields port_empty base)
        as (s & Hs & _ & _ & _ & _ & _ & Hport).
      { unfold port_usable, port_empty. by rewrite lookup_insert_eq. }
      exists s. unfold imported. rewrite Hsuper. split; [done|].
      unfold port_empty in Hport. rewrite lookup_insert_eq in Hport.
      split; [done|].
      rewrite <- Hs. symmetry.
      apply settings_same_truthy, insert_empty_same_truthy.
Qed.

End presence.
